(** * The moderation state controller of [frontend/src/hooks/useModeration.js]

    A shallow embedding of the [useModeration] hook and of the [useReports]
    compatibility adapter, with the properties the specification states
    about them.

    Modelling choices.
    - JavaScript values are the JSON-like values plus [undefined]; numbers
      are the integers (so [0] is the only falsy number), strings are
      sequences of code units below U+0100, objects are association lists
      in insertion order.
    - One dispatcher call runs from its first statement to its return; the
      interleaving of several outstanding calls is not modelled.
    - [moderationApi] and the text of the engine's [TypeError] messages are
      not part of the hook: they are parameters of the model.
    - A call yields its completion (a returned value or a thrown one), the
      store and backend it leaves, and the effects it performed, in order. *)

From Stdlib Require Import ZArith NArith String Ascii List Bool Lia DecimalString.
Import ListNotations.
Open Scope list_scope.
Open Scope string_scope.

(** ** JavaScript values *)

#[warnings="-register-all"]
Inductive value : Type :=
| VUndefined
| VNull
| VBool (b : bool)
| VNum (z : Z)
| VStr (s : string)
| VArr (l : list value)
| VObj (kvs : list (string * value)).

(** ToBoolean. *)
Definition truthy (v : value) : bool :=
  match v with
  | VUndefined | VNull => false
  | VBool b => b
  | VNum z => negb (z =? 0)%Z
  | VStr s => negb (String.length s =? 0)%nat
  | VArr _ | VObj _ => true
  end.

Definition nullish (v : value) : bool :=
  match v with
  | VUndefined | VNull => true
  | _ => false
  end.

(** [a || d] and [a ?? d]. *)
Definition or_else (a d : value) : value := if truthy a then a else d.
Definition nullish_or (a d : value) : value := if nullish a then d else a.

(** A parameter default [(x = d) => ...] replaces [undefined] only. *)
Definition default_arg (v d : value) : value :=
  match v with
  | VUndefined => d
  | _ => v
  end.

Fixpoint lookup (k : string) (kvs : list (string * value)) : option value :=
  match kvs with
  | [] => None
  | (k', v) :: rest => if String.eqb k k' then Some v else lookup k rest
  end.


(** [v.k] for a [v] that is neither [null] nor [undefined].  The hook reads
    only named data properties and [length]; no index and no method. *)
Definition get_prop (v : value) (k : string) : value :=
  match v with
  | VObj kvs => match lookup k kvs with Some x => x | None => VUndefined end
  | VArr l => if String.eqb k "length" then VNum (Z.of_nat (List.length l)) else VUndefined
  | VStr s => if String.eqb k "length" then VNum (Z.of_nat (String.length s)) else VUndefined
  | _ => VUndefined
  end.

(** [v?.k]. *)
Definition optget (v : value) (k : string) : value :=
  if nullish v then VUndefined else get_prop v k.

(** ToString, as template literals and [URLSearchParams.append] apply it. *)
Fixpoint to_string (v : value) : string :=
  match v with
  | VUndefined => "undefined"
  | VNull => "null"
  | VBool true => "true"
  | VBool false => "false"
  | VNum z => NilZero.string_of_int (Z.to_int z)
  | VStr s => s
  | VArr l =>
      (fix join (l : list value) : string :=
         match l with
         | [] => EmptyString
         | x :: tl =>
             let e := match x with
                      | VUndefined | VNull => EmptyString
                      | _ => to_string x
                      end in
             match tl with
             | [] => e
             | _ :: _ => e ++ "," ++ join tl
             end
         end) l
  | VObj _ => "[object Object]"
  end.

Definition dquote : string := String (ascii_of_nat 34) EmptyString.

(** ** URLSearchParams *)

Definition URLSearchParams : Type := list (string * string).

(** [params.append(name, v)]. *)
Definition append_param (params : URLSearchParams) (name : string) (v : value)
  : URLSearchParams :=
  (params ++ [(name, to_string v)])%list.

Definition hex_digit (n : N) : ascii :=
  if (n <? 10)%N then ascii_of_N (48 + n) else ascii_of_N (55 + n).

(** The bytes the form-urlencoded serializer leaves as they are. *)
Definition form_safe (n : N) : bool :=
  ((n =? 42) || (n =? 45) || (n =? 46) || (n =? 95)
   || ((48 <=? n) && (n <=? 57))
   || ((65 <=? n) && (n <=? 90))
   || ((97 <=? n) && (n <=? 122)))%N.

Definition encode_byte (n : N) : string :=
  if form_safe n then String (ascii_of_N n) EmptyString
  else if (n =? 32)%N then "+"
  else String "%" (String (hex_digit (n / 16)) (String (hex_digit (n mod 16)) EmptyString)).

(** UTF-8 of a code unit below U+0100. *)
Definition utf8 (c : ascii) : list N :=
  let n := N_of_ascii c in
  if (n <? 128)%N then [n] else [(192 + n / 64)%N; (128 + n mod 64)%N].

Fixpoint form_encode (s : string) : string :=
  match s with
  | EmptyString => EmptyString
  | String c rest =>
      fold_right (fun b acc => encode_byte b ++ acc) (form_encode rest) (utf8 c)
  end.

(** [params.toString()]. *)
Fixpoint params_toString (params : URLSearchParams) : string :=
  match params with
  | [] => EmptyString
  | (k, v) :: rest =>
      let pair := form_encode k ++ "=" ++ form_encode v in
      match rest with
      | [] => pair
      | _ :: _ => pair ++ "&" ++ params_toString rest
      end
  end.

(** ** The store, the remote service and the effects *)

(** The six [useState] cells of [useModeration]. *)
Record store : Type := Store {
  queue : value;
  appeals : value;
  filters : value;
  statistics : value;
  loading : bool;
  error : value
}.

(** [useState([])], [useState([])], [useState({})], [useState(null)],
    [useState(false)], [useState(null)]. *)
Definition initial_store : store :=
  Store (VArr []) (VArr []) (VObj []) VNull false VNull.

(** What each state setter does to the store. *)
Definition set_queue (v : value) (s : store) : store :=
  Store v (appeals s) (filters s) (statistics s) (loading s) (error s).
Definition set_appeals (v : value) (s : store) : store :=
  Store (queue s) v (filters s) (statistics s) (loading s) (error s).
Definition set_filters (v : value) (s : store) : store :=
  Store (queue s) (appeals s) v (statistics s) (loading s) (error s).
Definition set_statistics (v : value) (s : store) : store :=
  Store (queue s) (appeals s) (filters s) v (loading s) (error s).
Definition set_loading (l : bool) (s : store) : store :=
  Store (queue s) (appeals s) (filters s) (statistics s) l (error s).
Definition set_error (v : value) (s : store) : store :=
  Store (queue s) (appeals s) (filters s) (statistics s) (loading s) v.

(** The methods of [moderationApi] the hook calls. *)
Inductive endpoint : Type :=
| GetQueue | Analyze | TakeActionEp | BulkActionEp | GetAppeals
| SubmitAppealEp | GetFilters | CreateFilterEp | GetStatistics.

(** A settled promise. *)
Inductive reply : Type :=
| Resolved (v : value)
| Rejected (e : value).

Inductive event : Type :=
| ESetQueue (v : value)
| ESetAppeals (v : value)
| ESetFilters (v : value)
| ESetStatistics (v : value)
| ESetLoading (b : bool)
| ESetError (v : value)
| EToastSuccess (m : value)
| EToastError (m : value)
| ERemote (ep : endpoint) (args : list value) (r : reply).

Inductive completion (A : Type) : Type :=
| Normal (a : A)
| Thrown (e : value).
Arguments Normal {A} a.
Arguments Thrown {A} e.

Definition obj_message (m : string) : value := VObj [("message", VStr m)].

(** ** Observing a trace *)

Definition endpoint_index (ep : endpoint) : nat :=
  match ep with
  | GetQueue => 0 | Analyze => 1 | TakeActionEp => 2 | BulkActionEp => 3
  | GetAppeals => 4 | SubmitAppealEp => 5 | GetFilters => 6
  | CreateFilterEp => 7 | GetStatistics => 8
  end.

Definition endpoint_eqb (a b : endpoint) : bool :=
  Nat.eqb (endpoint_index a) (endpoint_index b).

Definition rejected_at (ep : endpoint) (e : event) : bool :=
  match e with
  | ERemote ep' _ (Rejected _) => endpoint_eqb ep ep'
  | _ => false
  end.

Definition resolved_at (ep : endpoint) (e : event) : bool :=
  match e with
  | ERemote ep' _ (Resolved _) => endpoint_eqb ep ep'
  | _ => false
  end.

Definition requested_at (ep : endpoint) (e : event) : bool :=
  match e with
  | ERemote ep' _ _ => endpoint_eqb ep ep'
  | _ => false
  end.

Definition writes_error (e : event) : bool :=
  match e with
  | ESetError _ => true
  | _ => false
  end.

Definition is_toast_error (e : event) : bool :=
  match e with
  | EToastError _ => true
  | _ => false
  end.

Definition is_toast_success (e : event) : bool :=
  match e with
  | EToastSuccess _ => true
  | _ => false
  end.

(** How many times the trace asks the remote service for the queue. *)
Definition queue_fetches (t : list event) : nat :=
  List.length (List.filter (requested_at GetQueue) t).

(** Whether [loading] is true at every request of the trace, given its value
    before the trace. *)
Fixpoint busy_at_requests (busy : bool) (t : list event) : bool :=
  match t with
  | [] => true
  | ESetLoading l :: t' => busy_at_requests l t'
  | ERemote _ _ _ :: t' => busy && busy_at_requests busy t'
  | _ :: t' => busy_at_requests busy t'
  end.

Definition is_request (e : event) : bool :=
  match e with
  | ERemote _ _ _ => true
  | _ => false
  end.

(** How many requests the trace makes to the remote service. *)
Definition requests (t : list event) : nat :=
  List.length (List.filter is_request t).

(** ** Concrete backends and stores *)

(** V8's wording of the [TypeError]. *)
Definition v8_message (v : value) (k : string) : string :=
  "Cannot read properties of " ++ to_string v ++ " (reading '" ++ k ++ "')".

(** The service is down: every request is rejected. *)
Definition failing_remote (ep : endpoint) (args : list value) (b : unit)
  : reply * unit :=
  (Rejected (obj_message "Network Error"), b).

Definition envelope (payload : value) : value :=
  VObj [("status", VNum 200); ("data", VObj [("success", VBool true); ("data", payload)])].

Definition flag (ok : bool) : value := VObj [("success", VBool ok)].

Definition item (id : Z) : value :=
  VObj [("id", VNum id); ("status", VStr "pending")].

(** A service that answers every request; its state counts the requests
    served.  The bulk endpoint reports one failure among three. *)
Definition demo_remote (ep : endpoint) (args : list value) (n : nat)
  : reply * nat :=
  (Resolved
     (envelope
        match ep with
        | GetQueue => VObj [("items", VArr [item 7; item 8])]
        | BulkActionEp => VArr [flag true; flag false; flag true]
        | GetAppeals => VObj [("appeals", VArr [])]
        | GetFilters => VObj [("status", VStr "pending")]
        | GetStatistics => VObj [("total", VNum 4)]
        | _ => VObj [("ok", VBool true)]
        end),
   S n).

(** As [demo_remote], but the queue answer has no [items] and the bulk
    answer has [null] for data. *)
Definition bare_remote (ep : endpoint) (args : list value) (n : nat)
  : reply * nat :=
  (Resolved
     (envelope
        match ep with
        | GetQueue => VObj []
        | _ => VNull
        end),
   S n).

(** Mutations are accepted, but the queue can no longer be read. *)
Definition flaky_remote (ep : endpoint) (args : list value) (n : nat)
  : reply * nat :=
  match ep with
  | GetQueue => (Rejected (obj_message "timeout"), S n)
  | _ => (Resolved (envelope (VObj [("ok", VBool true)])), S n)
  end.

Definition stale_store : store :=
  Store (VArr [item 1]) (VArr []) (VObj []) VNull false (VStr "stale").

(** * The navigation bar, [Navbar] *)

(** The three [useState] cells of the component. *)
Record navbar : Type := NavbarState {
  theme : string;
  mobileMenuOpen : bool;
  dropdownOpen : bool
}.

(** [useState('light')], [useState(false)], [useState(false)]. *)
Definition initial_navbar : navbar := NavbarState "light" false false.

(** The calls the component makes into its context and its router. *)
Inductive outside_call : Type :=
| CallLogout
| CallNavigate (path : string).

(** What the component reads and writes outside React: the class list and
    two style properties of [document.body], [localStorage], the answer of
    the colour-scheme media query, and the calls made, oldest first. *)
Record browser : Type := Browser {
  classList : list string;
  overflow : string;
  pointerEvents : string;
  localStorage : list (string * string);
  prefersDark : bool;
  calls : list outside_call
}.

(** [localStorage.getItem(k)]: [None] stands for [null]. *)
Fixpoint getItem (k : string) (l : list (string * string)) : option string :=
  match l with
  | [] => None
  | (k', v) :: rest => if String.eqb k k' then Some v else getItem k rest
  end.

(** [localStorage.setItem(k, v)]. *)
Fixpoint setItem (k v : string) (l : list (string * string))
  : list (string * string) :=
  match l with
  | [] => [(k, v)]
  | (k', v') :: rest =>
      if String.eqb k k' then (k, v) :: rest else (k', v') :: setItem k v rest
  end.

Definition is_ascii_whitespace (c : ascii) : bool :=
  let n := nat_of_ascii c in
  ((n =? 9) || (n =? 10) || (n =? 12) || (n =? 13) || (n =? 32))%nat.

Fixpoint has_whitespace (s : string) : bool :=
  match s with
  | EmptyString => false
  | String c rest => is_ascii_whitespace c || has_whitespace rest
  end.

(** The tokens a [DOMTokenList] accepts: not empty, no ASCII whitespace. *)
Definition valid_token (t : string) : bool :=
  negb (String.eqb t EmptyString) && negb (has_whitespace t).

(** [classList.remove(...tokens)], for valid tokens. *)
Definition classList_remove (tokens : list string) (l : list string) : list string :=
  List.filter (fun c => negb (existsb (String.eqb c) tokens)) l.

(** [classList.add(t)]: [None] when the token is refused and the call
    throws. *)
Definition classList_add (t : string) (l : list string) : option (list string) :=
  if valid_token t
  then Some (if existsb (String.eqb t) l then l else (l ++ [t])%list)
  else None.

Definition with_classList (l : list string) (w : browser) : browser :=
  Browser l (overflow w) (pointerEvents w) (localStorage w) (prefersDark w) (calls w).

(** How a handler or an effect ends: normally, or by a throw, with the
    state and the browser it leaves. *)
Inductive effect_end : Type :=
| Completed (n : navbar) (w : browser)
| Crashed (n : navbar) (w : browser).

(** Lines 23-26 and 42-44: the theme chosen is put in the state and made
    the only one of the two theme classes on the body. *)
Definition apply_theme (t : string) (n : navbar) (w : browser) : effect_end :=
  let n1 := NavbarState t (mobileMenuOpen n) (dropdownOpen n) in
  let w1 := with_classList (classList_remove ["light"; "dark"] (classList w)) w in
  match classList_add t (classList w1) with
  | Some l => Completed n1 (with_classList l w1)
  | None => Crashed n1 w1
  end.

(** [stored || (prefersDark ? 'dark' : 'light')]. *)
Definition initial_theme (w : browser) : string :=
  let preferred := if prefersDark w then "dark" else "light" in
  match getItem "theme" (localStorage w) with
  | Some t => if String.eqb t EmptyString then preferred else t
  | None => preferred
  end.

(** The first effect, run once at mount. *)
Definition themeSetup (n : navbar) (w : browser) : effect_end :=
  apply_theme (initial_theme w) n w.

(** The second effect, run at mount and whenever [mobileMenuOpen] has
    changed. *)
Definition lockScroll (n : navbar) (w : browser) : browser :=
  if mobileMenuOpen n
  then Browser (classList w) "hidden" "none" (localStorage w) (prefersDark w) (calls w)
  else Browser (classList w) "auto" "auto" (localStorage w) (prefersDark w) (calls w).

Definition toggleTheme (n : navbar) (w : browser) : effect_end :=
  let next := if String.eqb (theme n) "dark" then "light" else "dark" in
  match apply_theme next n w with
  | Completed n1 w1 =>
      Completed n1
                (Browser (classList w1) (overflow w1) (pointerEvents w1)
                         (setItem "theme" next (localStorage w1))
                         (prefersDark w1) (calls w1))
  | Crashed n1 w1 => Crashed n1 w1
  end.

Definition handleLogout (n : navbar) (w : browser) : effect_end :=
  Completed (NavbarState (theme n) false false)
            (Browser (classList w) (overflow w) (pointerEvents w) (localStorage w)
                     (prefersDark w) (calls w ++ [CallLogout; CallNavigate "/"])%list).

(** The clicks the component handles: the theme button, the hamburger, the
    backdrop, close button or a link of the drawer, the user button, and a
    logout button. *)
Inductive click : Type :=
| ClickTheme
| ClickHamburger
| ClickClose
| ClickUser
| ClickLogout.

Definition handler (c : click) (n : navbar) (w : browser) : effect_end :=
  match c with
  | ClickTheme => toggleTheme n w
  | ClickHamburger => Completed (NavbarState (theme n) true (dropdownOpen n)) w
  | ClickClose => Completed (NavbarState (theme n) false (dropdownOpen n)) w
  | ClickUser => Completed (NavbarState (theme n) (mobileMenuOpen n) (negb (dropdownOpen n))) w
  | ClickLogout => handleLogout n w
  end.

(** A click and the render that follows it: the scroll effect runs again
    only if [mobileMenuOpen] is not what it was. *)
Definition after_click (c : click) (n : navbar) (w : browser) : effect_end :=
  match handler c n w with
  | Completed n1 w1 =>
      if Bool.eqb (mobileMenuOpen n) (mobileMenuOpen n1)
      then Completed n1 w1
      else Completed n1 (lockScroll n1 w1)
  | Crashed n1 w1 => Crashed n1 w1
  end.

(** Mounting: both effects, in the order they are declared. *)
Definition mount (w : browser) : effect_end :=
  match themeSetup initial_navbar w with
  | Completed n1 w1 => Completed n1 (lockScroll initial_navbar w1)
  | Crashed n1 w1 => Crashed n1 w1
  end.

Fixpoint after_clicks (cs : list click) (n : navbar) (w : browser) : effect_end :=
  match cs with
  | [] => Completed n w
  | c :: rest =>
      match after_click c n w with
      | Completed n1 w1 => after_clicks rest n1 w1
      | Crashed n1 w1 => Crashed n1 w1
      end
  end.

(** A body with a utility class, a saved dark theme and the menu closed. *)
Definition demo_browser : browser :=
  Browser ["antialiased"; "light"] "auto" "auto"
          [("token", "abc"); ("theme", "dark")] false [].

(** A visit: the mount, then the clicks. *)
Definition visit (w : browser) (cs : list click) : effect_end :=
  match mount w with
  | Completed n1 w1 => after_clicks cs n1 w1
  | Crashed n1 w1 => Crashed n1 w1
  end.

(** State and browser agree: the body is locked exactly while the drawer is
    open, it carries the class of the current theme and no other theme
    class, and a non-empty saved theme is the current one. *)
Definition in_step (n : navbar) (w : browser) : Prop :=
  overflow w = (if mobileMenuOpen n then "hidden" else "auto") /\
  pointerEvents w = (if mobileMenuOpen n then "none" else "auto") /\
  In (theme n) (classList w) /\
  (forall t, t = "light" \/ t = "dark" -> In t (classList w) -> t = theme n) /\
  (forall t, getItem "theme" (localStorage w) = Some t ->
             t <> EmptyString -> t = theme n).

(** A saved theme that is not a class name. *)
Definition broken_browser : browser :=
  Browser ["antialiased"; "light"] "auto" "auto" [("theme", "dark mode")] true [].

(** * The dispatcher *)

(** What a call leaves behind: its completion, the store, the backend and
    the effects it performed, oldest first. *)
Record run (B A : Type) : Type := Run {
  out : completion A;
  st' : store;
  be' : B;
  evs : list event
}.
Arguments Run {B A} out st' be' evs.
Arguments out {B A} r.
Arguments st' {B A} r.
Arguments be' {B A} r.
Arguments evs {B A} r.

Section Controller.

(** The backend: its state, and what each endpoint answers and becomes. *)
Variable B : Type.
Variable remote : endpoint -> list value -> B -> reply * B.
(** The message of the [TypeError] raised by reading property [k] of
    [null] or [undefined]. *)
Variable type_error_message : value -> string -> string.

Definition M (A : Type) : Type := store -> B -> run B A.

Definition ret {A} (a : A) : M A := fun s b => Run (Normal a) s b [].

Definition throw {A} (e : value) : M A := fun s b => Run (Thrown e) s b [].

(** The effects [t] happened before those of [r]. *)
Definition after {A} (t : list event) (r : run B A) : run B A :=
  match r with
  | Run o s b t2 => Run o s b (t ++ t2)%list
  end.

Definition bind {A C} (m : M A) (k : A -> M C) : M C :=
  fun s b =>
    match m s b with
    | Run (Normal a) s1 b1 t => after t (k a s1 b1)
    | Run (Thrown e) s1 b1 t => Run (Thrown e) s1 b1 t
    end.

Notation "x <- m ;; k" := (bind m (fun x => k))
  (at level 61, m at next level, right associativity).
Notation "m ;; k" := (bind m (fun _ => k))
  (at level 61, right associativity).

(** [try { body } catch (err) { handler } finally { fin }]. *)
Definition try_catch_finally {A} (body : M A) (handler : value -> M A)
           (fin : M unit) : M A :=
  fun s b =>
    let caught :=
      match body s b with
      | Run (Normal a) s1 b1 t => Run (Normal a) s1 b1 t
      | Run (Thrown e) s1 b1 t => after t (handler e s1 b1)
      end in
    match caught with
    | Run o s2 b2 t2 =>
        match fin s2 b2 with
        | Run (Normal _) s3 b3 t3 => Run o s3 b3 (t2 ++ t3)%list
        | Run (Thrown e) s3 b3 t3 => Run (Thrown e) s3 b3 (t2 ++ t3)%list
        end
    end.

Definition effect (upd : store -> store) (e : event) : M unit :=
  fun s b => Run (Normal tt) (upd s) b [e].

Definition setQueue (v : value) : M unit := effect (set_queue v) (ESetQueue v).
Definition setAppeals (v : value) : M unit := effect (set_appeals v) (ESetAppeals v).
Definition setFilters (v : value) : M unit := effect (set_filters v) (ESetFilters v).
Definition setStatistics (v : value) : M unit :=
  effect (set_statistics v) (ESetStatistics v).
Definition setLoading (l : bool) : M unit := effect (set_loading l) (ESetLoading l).
Definition setError (v : value) : M unit := effect (set_error v) (ESetError v).

(** [toast.success(m)] and [toast.error(m)]: no result is used and the
    store is not touched. *)
Definition toast_success (m : value) : M unit := effect (fun s => s) (EToastSuccess m).
Definition toast_error (m : value) : M unit := effect (fun s => s) (EToastError m).

(** [v.k]: a [TypeError] when [v] is [null] or [undefined]. *)
Definition prop (v : value) (k : string) : M value :=
  if nullish v then throw (obj_message (type_error_message v k))
  else ret (get_prop v k).

(** [await moderationApi.ep(...args)]. *)
Definition await (ep : endpoint) (args : list value) : M value :=
  fun s b =>
    let (rep, b1) := remote ep args b in
    match rep with
    | Resolved v => Run (Normal v) s b1 [ERemote ep args rep]
    | Rejected e => Run (Thrown e) s b1 [ERemote ep args rep]
    end.

(** [if (options.k) params.append(k, options.k)]. *)
Definition append_if (options : value) (k : string) (params : URLSearchParams)
  : M URLSearchParams :=
  x <- prop options k ;;
  if truthy x then
    y <- prop options k ;;
    ret (append_param params k y)
  else ret params.

(** Lines 28-33: the query of [fetchQueue]. *)
Definition build_params (options : value) : M URLSearchParams :=
  p1 <- append_if options "status" [] ;;
  p2 <- append_if options "page" p1 ;;
  p3 <- append_if options "limit" p2 ;;
  p4 <- append_if options "category" p3 ;;
  append_if options "priority" p4.

Definition fetchQueue (options0 : value) : M value :=
  let options := default_arg options0 (VObj []) in
  setLoading true ;;
  setError VNull ;;
  try_catch_finally
    (params <- build_params options ;;
     response <- await GetQueue [VStr (params_toString params)] ;;
     setQueue (or_else (optget (optget (optget response "data") "data") "items")
                       (VArr [])) ;;
     prop response "data")
    (fun err =>
       setError (or_else (optget err "message") (VStr "Unknown error")) ;;
       toast_error (VStr "Failed to fetch moderation queue") ;;
       ret VNull)
    (setLoading false).

Definition analyzeContent (content : value) : M value :=
  setLoading true ;;
  try_catch_finally
    (response <- await Analyze [content] ;;
     ret (optget (optget response "data") "data"))
    (fun err =>
       toast_error (VStr "Content analysis failed") ;;
       ret VNull)
    (setLoading false).

Definition takeAction (queueItemId action reason notes0 : value) : M value :=
  let notes := default_arg notes0 (VStr EmptyString) in
  setLoading true ;;
  try_catch_finally
    (response <- await TakeActionEp
                   [queueItemId;
                    VObj [("action", action); ("reason", reason); ("notes", notes)]] ;;
     toast_success (VStr ("Action " ++ dquote ++ to_string action ++ dquote
                          ++ " completed")) ;;
     fetchQueue VUndefined ;;
     prop response "data")
    (fun err =>
       toast_error (VStr "Failed to take action") ;;
       ret VNull)
    (setLoading false).

(** [list.filter((r) => r?.success).length]. *)
Definition count_success (l : list value) : Z :=
  Z.of_nat (List.length (List.filter (fun r => truthy (optget r "success")) l)).

(** Lines 96-99. *)
Definition successCount (response : value) : Z :=
  let list := or_else (optget (optget response "data") "data") (VArr []) in
  match list with
  | VArr l => count_success l
  | _ => 0%Z
  end.

Definition bulkAction (itemIds action reason : value) : M value :=
  setLoading true ;;
  try_catch_finally
    (response <- await BulkActionEp
                   [VObj [("itemIds", itemIds); ("action", action); ("reason", reason)]] ;;
     len <- prop itemIds "length" ;;
     toast_success (VStr ("Bulk action completed: "
                          ++ to_string (VNum (successCount response)) ++ "/"
                          ++ to_string len ++ " items")) ;;
     fetchQueue VUndefined ;;
     prop response "data")
    (fun err =>
       toast_error (VStr "Bulk action failed") ;;
       ret VNull)
    (setLoading false).

Definition fetchAppeals (options0 : value) : M value :=
  let options := default_arg options0 (VObj []) in
  setLoading true ;;
  try_catch_finally
    (response <- await GetAppeals [options] ;;
     setAppeals (or_else (optget (optget (optget response "data") "data") "appeals")
                         (VArr [])) ;;
     prop response "data")
    (fun err =>
       toast_error (VStr "Failed to fetch appeals") ;;
       ret VNull)
    (setLoading false).

Definition submitAppeal (actionId reason evidence0 : value) : M value :=
  let evidence := default_arg evidence0 (VArr []) in
  setLoading true ;;
  try_catch_finally
    (response <- await SubmitAppealEp
                   [VObj [("actionId", actionId); ("reason", reason);
                          ("evidence", evidence)]] ;;
     toast_success (VStr "Appeal submitted successfully") ;;
     prop response "data")
    (fun err =>
       toast_error (or_else (optget (optget (optget err "response") "data") "message")
                            (VStr "Failed to submit appeal")) ;;
       ret VNull)
    (setLoading false).

Definition fetchFilters (options0 : value) : M value :=
  let options := default_arg options0 (VObj []) in
  setLoading true ;;
  try_catch_finally
    (response <- await GetFilters [options] ;;
     setFilters (or_else (optget (optget response "data") "data") (VObj [])) ;;
     prop response "data")
    (fun err =>
       toast_error (VStr "Failed to fetch filters") ;;
       ret VNull)
    (setLoading false).

Definition createFilter (filterData : value) : M value :=
  setLoading true ;;
  try_catch_finally
    (response <- await CreateFilterEp [filterData] ;;
     toast_success (VStr "Filter created successfully") ;;
     fetchFilters VUndefined ;;
     prop response "data")
    (fun err =>
       toast_error (VStr "Failed to create filter") ;;
       ret VNull)
    (setLoading false).

Definition fetchStatistics (startDate endDate : value) : M value :=
  setLoading true ;;
  try_catch_finally
    (response <- await GetStatistics
                   [VObj [("startDate", startDate); ("endDate", endDate)]] ;;
     setStatistics (or_else (optget (optget response "data") "data") VNull) ;;
     prop response "data")
    (fun err =>
       toast_error (VStr "Failed to fetch statistics") ;;
       ret VNull)
    (setLoading false).

(** One call of an operation the hook returns, with its arguments. *)
Inductive call : Type :=
| FetchQueue (options : value)
| AnalyzeContent (content : value)
| TakeAction (queueItemId action reason notes : value)
| BulkAction (itemIds action reason : value)
| FetchAppeals (options : value)
| SubmitAppeal (actionId reason evidence : value)
| FetchFilters (options : value)
| CreateFilter (filterData : value)
| FetchStatistics (startDate endDate : value).

Definition dispatch (c : call) : M value :=
  match c with
  | FetchQueue o => fetchQueue o
  | AnalyzeContent x => analyzeContent x
  | TakeAction i a r n => takeAction i a r n
  | BulkAction i a r => bulkAction i a r
  | FetchAppeals o => fetchAppeals o
  | SubmitAppeal i r e => submitAppeal i r e
  | FetchFilters o => fetchFilters o
  | CreateFilter d => createFilter d
  | FetchStatistics s e => fetchStatistics s e
  end.

(** The [moderationApi] method an operation calls on its own account. *)
Definition endpoint_of (c : call) : endpoint :=
  match c with
  | FetchQueue _ => GetQueue
  | AnalyzeContent _ => Analyze
  | TakeAction _ _ _ _ => TakeActionEp
  | BulkAction _ _ _ => BulkActionEp
  | FetchAppeals _ => GetAppeals
  | SubmitAppeal _ _ _ => SubmitAppealEp
  | FetchFilters _ => GetFilters
  | CreateFilter _ => CreateFilterEp
  | FetchStatistics _ _ => GetStatistics
  end.

(** ** The report-listing adapter, [useReports] *)

Record reportFilters : Type := ReportFilters {
  status : value;
  contentType : value;
  reason : value;
  sortBy : value
}.

Record pagination : Type := Pagination { hasMore : bool }.

(** The data fields of the object [useReports] returns. *)
Record reportsView : Type := ReportsView {
  reports : value;
  view_loading : bool;
  view_filters : reportFilters;
  view_pagination : pagination
}.

Definition useReports (m : store) : reportsView :=
  ReportsView
    (or_else (queue m) (VArr []))
    (loading m)
    (ReportFilters
       (nullish_or (optget (filters m) "status") (VStr "all"))
       (nullish_or (optget (filters m) "contentType") (VStr "all"))
       (nullish_or (optget (filters m) "reason") (VStr "all"))
       (nullish_or (optget (filters m) "sortBy") (VStr "recent")))
    (Pagination false).

(** The handlers of the same object. *)
Definition loadMore : M value := ret VUndefined.

Definition refresh : M value :=
  fetchQueue VUndefined ;;
  ret VUndefined.

Definition applyFilters (nextFilters0 : value) : M value :=
  let nextFilters := default_arg nextFilters0 (VObj []) in
  let _unused := nextFilters in
  ret VUndefined.

Definition clearFilters : M value := ret VUndefined.

(** ** The other adapters *)

(** The data fields of the object [useReportDetails] returns. *)
Record reportDetailsView : Type := ReportDetailsView {
  report : value;
  details_loading : bool;
  details_error : value
}.

Definition useReportDetails (m : store) : reportDetailsView :=
  ReportDetailsView VNull (loading m) (error m).

(** Its [refresh] handler. *)
Definition refreshDetails : M value := ret VUndefined.

Definition zero_statistics : value :=
  VObj [("total", VNum 0); ("pending", VNum 0); ("resolved", VNum 0);
        ("autoFlagged", VNum 0)].

(** The [statistics] field of the object [useModerationStats] returns. *)
Definition useModerationStats (m : store) : value :=
  or_else (statistics m) zero_statistics.

Definition refreshStats : M value :=
  fetchStatistics VUndefined VUndefined ;;
  ret VUndefined.

(** The handler and the flag of the object [useModerationActions]
    returns. *)
Definition performBulkAction (ids action : value) : M value :=
  bulkAction ids action (VStr "bulk_action") ;;
  ret VUndefined.

Definition isProcessing (m : store) : bool := loading m.

(** ** The query of [fetchQueue] *)

(** The names [fetchQueue] copies into the query, in the order it tests
    them. *)
Definition query_fields : list string :=
  ["status"; "page"; "limit"; "category"; "priority"].

(** The query as a function of the options: the tested names whose value is
    truthy, each with its value as a string. *)
Definition query_of (options : value) : URLSearchParams :=
  List.map (fun k => (k, to_string (get_prop options k)))
           (List.filter (fun k => truthy (get_prop options k)) query_fields).

Lemma build_params_run (options : value) (s : store) (b : B) :
  build_params options s b =
  if nullish options
  then Run (Thrown (obj_message (type_error_message options "status"))) s b []
  else Run (Normal (query_of options)) s b [].
Proof.
  unfold build_params, append_if, bind, prop, query_of, query_fields, ret, throw.
  destruct (nullish options) eqn:Hn; cbn; [reflexivity|].
  destruct (truthy (get_prop options "status")); cbn;
    destruct (truthy (get_prop options "page")); cbn;
    destruct (truthy (get_prop options "limit")); cbn;
    destruct (truthy (get_prop options "category")); cbn;
    destruct (truthy (get_prop options "priority")); cbn; reflexivity.
Qed.

Arguments build_params : simpl never.

Ltac unfold_ops :=
  unfold dispatch, refresh, loadMore, applyFilters, clearFilters;
  unfold takeAction, bulkAction, createFilter;
  unfold fetchQueue, analyzeContent, fetchAppeals, submitAppeal, fetchFilters,
    fetchStatistics;
  unfold try_catch_finally, bind, await, prop, setQueue, setAppeals, setFilters,
    setStatistics, setLoading, setError, toast_success, toast_error, effect,
    after, ret, throw;
  unfold set_queue, set_appeals, set_filters, set_statistics, set_loading, set_error.

Ltac step_run :=
  match goal with
  | |- context [build_params ?o ?s ?b] => rewrite (build_params_run o s b)
  | |- context [remote ?ep ?args ?b] =>
      let E := fresh "Hreply" in
      destruct (remote ep args b) as [[?r|?e] ?b1] eqn:E
  | |- context [if nullish ?v then _ else _] =>
      let E := fresh "Hnull" in destruct (nullish v) eqn:E
  end.

Ltac run_all := unfold_ops; cbn; repeat (step_run; cbn).

Ltac split_in :=
  repeat match goal with
         | H : In _ [] |- _ => destruct H
         | H : In _ (_ :: _) |- _ => destruct H as [H|H]
         | H : _ \/ _ |- _ => destruct H as [H|H]
         | H : False |- _ => destruct H
         | H : @eq event _ _ |- _ => first [discriminate H | inversion H; subst; clear H]
         end.

(** ** Properties of [fetchQueue] *)


(** C2: when the remote service answers the queue request of a [fetchQueue]
    call, the queue afterwards is the [items] sequence under the answer's
    data envelope, and the empty sequence when that field is absent; it does
    not depend on the queue before the call. *)
Theorem fetchQueue_success_replaces_queue
        (options : value) (s : store) (b : B) (args : list value) (r : value) :
  let res := fetchQueue options s b in
  let items := optget (optget (optget r "data") "data") "items" in
  In (ERemote GetQueue args (Resolved r)) (evs res) ->
  queue (st' res) = or_else items (VArr []) /\
  (forall l, items = VArr l -> queue (st' res) = VArr l) /\
  (items = VUndefined -> queue (st' res) = VArr []).
Proof.
  intros res items Hin.
  assert (Hq : queue (st' res) = or_else items (VArr [])).
  { subst res items. revert Hin. run_all; intro Hin; split_in; reflexivity. }
  split; [exact Hq|]. split.
  - intros l Hl. rewrite Hq, Hl. reflexivity.
  - intros Hu. rewrite Hq, Hu. reflexivity.
Qed.

(** C3: when the remote service rejects the queue request of a [fetchQueue]
    call, the queue is the one before the call, [loading] is false, and
    [error] holds a message: the rejection's own when it has a truthy one,
    and a fixed text otherwise. *)
Theorem fetchQueue_failure_keeps_queue (options : value) (s : store) (b : B) :
  let res := fetchQueue options s b in
  existsb (rejected_at GetQueue) (evs res) = true ->
  queue (st' res) = queue s /\
  loading (st' res) = false /\
  nullish (error (st' res)) = false /\
  truthy (error (st' res)) = true /\
  exists args e,
    In (ERemote GetQueue args (Rejected e)) (evs res) /\
    error (st' res) = or_else (optget e "message") (VStr "Unknown error").
Proof.
  intros res. subst res.
  assert (Hor : forall e, truthy (or_else (optget e "message") (VStr "Unknown error")) = true).
  { intro e. unfold or_else.
    destruct (truthy (optget e "message")) eqn:Ht; [exact Ht | reflexivity]. }
  assert (Hnn : forall v, truthy v = true -> nullish v = false).
  { intros [] Hv; try reflexivity; discriminate Hv. }
  run_all; intro Hex; try discriminate Hex;
    (split; [reflexivity|]; split; [reflexivity|];
     split; [apply Hnn, Hor|]; split; [apply Hor|];
     eexists; eexists; split; [right; right; left; reflexivity | reflexivity]).
Qed.

(** ** The embedded refresh *)

Lemma fetchQueue_returns (options : value) (s : store) (b : B) :
  exists v, out (fetchQueue options s b) = Normal v.
Proof. run_all; eexists; reflexivity. Qed.

Lemma fetchQueue_default_requests (s : store) (b : B) :
  queue_fetches (evs (fetchQueue VUndefined s b)) = 1.
Proof. run_all; reflexivity. Qed.

Lemma fetchQueue_clears_first (options : value) (s : store) (b : B) :
  exists rest,
    evs (fetchQueue options s b) = ESetLoading true :: ESetError VNull :: rest.
Proof. run_all; eexists; reflexivity. Qed.

Lemma fetchQueue_requests_queue_only
      (options : value) (s : store) (b : B) (ep : endpoint) :
  endpoint_eqb ep GetQueue = false ->
  existsb (requested_at ep) (evs (fetchQueue options s b)) = false.
Proof.
  intro Hep. run_all; rewrite ?Hep; reflexivity.
Qed.

Lemma queue_fetches_app (t1 t2 : list event) :
  queue_fetches (t1 ++ t2) = queue_fetches t1 + queue_fetches t2.
Proof.
  unfold queue_fetches. rewrite List.filter_app, List.length_app. reflexivity.
Qed.

Ltac unfold_monad :=
  unfold try_catch_finally, bind, await, prop, setQueue, setAppeals, setFilters,
    setStatistics, setLoading, setError, toast_success, toast_error, effect,
    after, ret, throw.

(** A mutation whose own request is answered: the notification, then the
    whole of a [fetchQueue()] call, then the rest of the mutation. *)
Lemma takeAction_resolved
      (queueItemId action reason notes : value) (s : store) (b : B)
      (response : value) (b1 : B) :
  remote TakeActionEp
         [queueItemId;
          VObj [("action", action); ("reason", reason);
                ("notes", default_arg notes (VStr EmptyString))]] b
  = (Resolved response, b1) ->
  let f := fetchQueue VUndefined (set_loading true s) b1 in
  takeAction queueItemId action reason notes s b =
  Run (if nullish response then Normal VNull
       else Normal (get_prop response "data"))
      (set_loading false (st' f))
      (be' f)
      ([ESetLoading true;
        ERemote TakeActionEp
                [queueItemId;
                 VObj [("action", action); ("reason", reason);
                       ("notes", default_arg notes (VStr EmptyString))]]
                (Resolved response);
        EToastSuccess (VStr ("Action " ++ dquote ++ to_string action ++ dquote
                             ++ " completed"))]
         ++ evs f
         ++ (if nullish response
             then [EToastError (VStr "Failed to take action"); ESetLoading false]
             else [ESetLoading false]))%list.
Proof.
  intros Hreply f.
  destruct (fetchQueue_returns VUndefined (set_loading true s) b1) as [v Hv].
  fold f in Hv.
  unfold takeAction. unfold_monad. cbn -[fetchQueue to_string].
  rewrite Hreply. cbn -[fetchQueue to_string].
  fold f. clearbody f.
  destruct f as [o2 s2 b2 t2]. cbn in Hv. subst o2.
  destruct (nullish response); cbn -[to_string];
    rewrite ?List.app_nil_r, <- ?List.app_assoc; reflexivity.
Qed.

Lemma bulkAction_resolved
      (itemIds action reason : value) (s : store) (b : B)
      (response : value) (b1 : B) :
  remote BulkActionEp
         [VObj [("itemIds", itemIds); ("action", action); ("reason", reason)]] b
  = (Resolved response, b1) ->
  nullish itemIds = false ->
  let f := fetchQueue VUndefined (set_loading true s) b1 in
  bulkAction itemIds action reason s b =
  Run (if nullish response then Normal VNull
       else Normal (get_prop response "data"))
      (set_loading false (st' f))
      (be' f)
      ([ESetLoading true;
        ERemote BulkActionEp
                [VObj [("itemIds", itemIds); ("action", action);
                       ("reason", reason)]]
                (Resolved response);
        EToastSuccess (VStr ("Bulk action completed: "
                             ++ to_string (VNum (successCount response)) ++ "/"
                             ++ to_string (get_prop itemIds "length")
                             ++ " items"))]
         ++ evs f
         ++ (if nullish response
             then [EToastError (VStr "Bulk action failed"); ESetLoading false]
             else [ESetLoading false]))%list.
Proof.
  intros Hreply Hids f.
  destruct (fetchQueue_returns VUndefined (set_loading true s) b1) as [v Hv].
  fold f in Hv.
  unfold bulkAction. unfold_monad. cbn -[fetchQueue to_string successCount].
  rewrite Hreply, Hids. cbn -[fetchQueue to_string successCount].
  fold f. clearbody f.
  destruct f as [o2 s2 b2 t2]. cbn in Hv. subst o2.
  destruct (nullish response); cbn -[to_string successCount];
    rewrite ?List.app_nil_r, <- ?List.app_assoc; reflexivity.
Qed.

Lemma fetchQueue_no_other_reply
      (options : value) (s : store) (b : B)
      (ep : endpoint) (args : list value) (rep : reply) :
  endpoint_eqb ep GetQueue = false ->
  ~ In (ERemote ep args rep) (evs (fetchQueue options s b)).
Proof.
  intros Hep Hin.
  pose proof (fetchQueue_requests_queue_only options s b ep Hep) as Hnone.
  assert (Hsome : existsb (requested_at ep) (evs (fetchQueue options s b)) = true).
  { apply List.existsb_exists. exists (ERemote ep args rep). split; [exact Hin|].
    cbn. unfold endpoint_eqb. apply Nat.eqb_refl. }
  rewrite Hnone in Hsome. discriminate Hsome.
Qed.


(** ** Properties of the mutations *)

(** C4: a [bulkAction] call on three ids whose answer carries
    [[{success:true},{success:false},{success:true}]] under its data
    envelope notifies success with the ratio 2/3, once, and then runs
    [fetchQueue()] once: what follows the notification is one whole
    [fetchQueue] call, and the call asks the service for the queue once. *)
Theorem bulkAction_reports_ratio
        (ids : list value) (action reason : value) (s : store) (b : B)
        (args : list value) (r : value) :
  let res := bulkAction (VArr ids) action reason s b in
  In (ERemote BulkActionEp args (Resolved r)) (evs res) ->
  optget (optget r "data") "data" = VArr [flag true; flag false; flag true] ->
  List.length ids = 3 ->
  exists s1 b1,
    evs res =
      ([ESetLoading true;
        ERemote BulkActionEp args (Resolved r);
        EToastSuccess (VStr "Bulk action completed: 2/3 items")]
         ++ evs (fetchQueue VUndefined s1 b1)
         ++ [ESetLoading false])%list /\
    queue_fetches (evs (fetchQueue VUndefined s1 b1)) = 1 /\
    queue_fetches (evs res) = 1 /\
    List.filter is_toast_success (evs res) =
      [EToastSuccess (VStr "Bulk action completed: 2/3 items")].
Proof.
  intros res Hin Hdata Hlen.
  destruct (remote BulkActionEp
              [VObj [("itemIds", VArr ids); ("action", action); ("reason", reason)]] b)
    as [[r0|e0] b1] eqn:Hreply.
  - pose proof (bulkAction_resolved (VArr ids) action reason s b r0 b1
                                    Hreply eq_refl) as Heq.
    cbv zeta in Heq. subst res. rewrite Heq in *. clear Heq.
    cbn [evs] in *.
    assert (Hr : args = [VObj [("itemIds", VArr ids); ("action", action);
                               ("reason", reason)]] /\ r0 = r).
    { apply List.in_app_or in Hin. destruct Hin as [Hin|Hin].
      - split_in. split; reflexivity.
      - apply List.in_app_or in Hin. destruct Hin as [Hin|Hin].
        + exfalso. revert Hin. apply fetchQueue_no_other_reply. reflexivity.
        + destruct (nullish r0); split_in. }
    destruct Hr as [-> ->].
    assert (Hnn : nullish r = false).
    { destruct (nullish r) eqn:Hn; [|reflexivity].
      unfold optget in Hdata. rewrite Hn in Hdata. cbn in Hdata. discriminate Hdata. }
    assert (Hmsg : "Bulk action completed: "
                   ++ to_string (VNum (successCount r)) ++ "/"
                   ++ to_string (get_prop (VArr ids) "length") ++ " items"
                   = "Bulk action completed: 2/3 items").
    { unfold successCount. rewrite Hdata. cbn. rewrite Hlen. reflexivity. }
    rewrite Hnn, Hmsg.
    pose proof (fetchQueue_default_requests (set_loading true s) b1) as Hone.
    pose proof (fetchQueue_requests_queue_only VUndefined (set_loading true s) b1) as Honly.
    exists (set_loading true s), b1.
    split; [reflexivity|]. split; [exact Hone|]. split.
    + rewrite !queue_fetches_app, Hone. reflexivity.
    + rewrite !List.filter_app.
      assert (Hnt : List.filter is_toast_success
                      (evs (fetchQueue VUndefined (set_loading true s) b1)) = []).
      { clear. run_all; reflexivity. }
      rewrite Hnt. reflexivity.
  - exfalso. subst res. revert Hin.
    unfold_ops; cbn; rewrite Hreply; cbn. intro Hin. split_in.
Qed.



(** ** The dispatcher as a whole *)

(** C9: no dispatcher operation ever completes by throwing, and an
    operation whose own request is rejected returns [null]. *)
Theorem dispatch_absorbs_failure (c : call) (s : store) (b : B) :
  let res := dispatch c s b in
  (exists v, out res = Normal v) /\
  (existsb (rejected_at (endpoint_of c)) (evs res) = true ->
   out res = Normal VNull).
Proof.
  destruct c; run_all;
    (split; [eexists; reflexivity
            | intro Hrej; first [reflexivity | discriminate Hrej]]).
Qed.

(** C1, as the code has it: every dispatcher operation sets [loading] to
    true first, so [loading] is true at every request it makes; it notifies
    failure when its own request is rejected; and it sets [loading] to
    false last, on every path.  [fetchQueue] clears [error] right after
    raising [loading] and leaves a message in it when its request is
    rejected.  The other eight operations do not write [error] when their
    request is rejected: it keeps the value it had before the call. *)
Theorem dispatch_busy_discipline (c : call) (s : store) (b : B) :
  let res := dispatch c s b in
  List.hd_error (evs res) = Some (ESetLoading true) /\
  busy_at_requests (loading s) (evs res) = true /\
  List.last (evs res) (ESetLoading true) = ESetLoading false /\
  loading (st' res) = false /\
  (existsb (rejected_at (endpoint_of c)) (evs res) = true ->
   existsb is_toast_error (evs res) = true) /\
  (endpoint_of c = GetQueue ->
   List.nth_error (evs res) 1 = Some (ESetError VNull) /\
   (existsb (rejected_at GetQueue) (evs res) = true ->
    nullish (error (st' res)) = false)) /\
  (endpoint_of c <> GetQueue ->
   existsb (rejected_at (endpoint_of c)) (evs res) = true ->
   existsb writes_error (evs res) = false /\ error (st' res) = error s).
Proof.
  assert (Hor : forall e, nullish (or_else (optget e "message") (VStr "Unknown error")) = false).
  { intro e. unfold or_else.
    destruct (truthy (optget e "message")) eqn:Ht; [|reflexivity].
    destruct (optget e "message"); try reflexivity; discriminate Ht. }
  destruct c; run_all;
    repeat match goal with
           | |- _ /\ _ => split
           | |- _ -> _ => intro
           | H : GetQueue <> GetQueue |- _ => exfalso; apply H; reflexivity
           | H : @eq endpoint _ _ |- _ => discriminate H
           | H : @eq bool _ _ |- _ => discriminate H
           | |- nullish _ = false => apply Hor
           | |- _ => reflexivity
           end.
Qed.

(** How a [fetchQueue] call leaves [error]: cleared, with no failure
    notified, or holding a message, with the failure notified and [null]
    returned. *)
Lemma fetchQueue_final_error (options : value) (s : store) (b : B) :
  let f := fetchQueue options s b in
  (error (st' f) = VNull /\ existsb is_toast_error (evs f) = false) \/
  (truthy (error (st' f)) = true /\ existsb is_toast_error (evs f) = true /\
   out f = Normal VNull).
Proof.
  assert (Hor : forall v, truthy (or_else v (VStr "Unknown error")) = true).
  { intro v. unfold or_else. destruct (truthy v) eqn:Ht; [exact Ht | reflexivity]. }
  run_all;
    first [left; split; reflexivity
          | right; split; [apply Hor | split; reflexivity]].
Qed.

(** C10, as the code has it: among the dispatcher operations only
    [fetchQueue] writes [error].  For each of the other eight, a rejected
    request leaves [error] as it was and no write of [error] happens; the
    six that embed no queue refresh never write it; and whenever
    [takeAction] or [bulkAction] does change it, its own request was
    answered and every write of [error] lies inside the one embedded
    [fetchQueue()] call.  That call starts by clearing [error], and what it
    leaves is what the mutation leaves: [null] when the refresh went
    through, and the message of the refresh's own failure, which it
    notifies, when it did not. *)
Theorem only_fetchQueue_writes_error (c : call) (s : store) (b : B) :
  endpoint_of c <> GetQueue ->
  let res := dispatch c s b in
  (existsb (rejected_at (endpoint_of c)) (evs res) = true ->
   existsb writes_error (evs res) = false /\ error (st' res) = error s) /\
  (endpoint_of c <> TakeActionEp -> endpoint_of c <> BulkActionEp ->
   existsb writes_error (evs res) = false /\ error (st' res) = error s) /\
  ((existsb writes_error (evs res) = false /\ error (st' res) = error s) \/
   (existsb (resolved_at (endpoint_of c)) (evs res) = true /\
    exists s1 b1 pre post,
      evs res = (pre ++ evs (fetchQueue VUndefined s1 b1) ++ post)%list /\
      existsb writes_error pre = false /\
      existsb writes_error post = false /\
      error s1 = error s /\
      List.nth_error (evs (fetchQueue VUndefined s1 b1)) 1 = Some (ESetError VNull) /\
      error (st' res) = error (st' (fetchQueue VUndefined s1 b1)) /\
      ((error (st' res) = VNull /\
        existsb is_toast_error (evs (fetchQueue VUndefined s1 b1)) = false) \/
       (truthy (error (st' res)) = true /\
        existsb is_toast_error (evs (fetchQueue VUndefined s1 b1)) = true /\
        out (fetchQueue VUndefined s1 b1) = Normal VNull)))).
Proof.
  intros Hc res.
  assert (Hmain :
            (existsb (rejected_at (endpoint_of c)) (evs res) = true ->
             existsb writes_error (evs res) = false /\ error (st' res) = error s) /\
            (endpoint_of c <> TakeActionEp -> endpoint_of c <> BulkActionEp ->
             existsb writes_error (evs res) = false /\ error (st' res) = error s)).
  { subst res. revert Hc.
    destruct c; run_all;
      repeat match goal with
             | |- _ /\ _ => split
             | |- _ -> _ => intro
             | H : ?x <> ?x |- _ => exfalso; apply H; reflexivity
             | H : @eq bool _ _ |- _ => discriminate H
             | |- _ => reflexivity
             end. }
  destruct Hmain as [Hrej Hsix].
  split; [exact Hrej|]. split; [exact Hsix|].
  assert (Hclear : forall s1 b1,
             List.nth_error (evs (fetchQueue VUndefined s1 b1)) 1 = Some (ESetError VNull)).
  { intros s1 b1. destruct (fetchQueue_clears_first VUndefined s1 b1) as [rest ->].
    reflexivity. }
  destruct c as [o|x|i a r n|i a r|o|i r e|o|d|sd ed];
    try (left; apply Hsix; cbn; discriminate).
  - (* takeAction *)
    subst res. cbn [dispatch endpoint_of] in *.
    destruct (remote TakeActionEp
                [i; VObj [("action", a); ("reason", r);
                          ("notes", default_arg n (VStr EmptyString))]] b)
      as [[r0|e0] b1] eqn:Hreply.
    + right.
      pose proof (takeAction_resolved i a r n s b r0 b1 Hreply) as Heq.
      cbv zeta in Heq. rewrite Heq. clear Heq. cbn [evs st'].
      split; [reflexivity|].
      exists (set_loading true s), b1. eexists. eexists.
      split; [reflexivity|].
      split; [reflexivity|].
      split; [destruct (nullish r0); reflexivity|].
      split; [reflexivity|].
      split; [apply Hclear|]. split; [reflexivity|].
      exact (fetchQueue_final_error VUndefined (set_loading true s) b1).
    + left. apply Hrej.
      unfold_ops; cbn; rewrite Hreply; cbn. reflexivity.
  - (* bulkAction *)
    subst res. cbn [dispatch endpoint_of] in *.
    destruct (remote BulkActionEp
                [VObj [("itemIds", i); ("action", a); ("reason", r)]] b)
      as [[r0|e0] b1] eqn:Hreply.
    + destruct (nullish i) eqn:Hids.
      * left. unfold_ops; cbn; rewrite Hreply, Hids; cbn.
        split; reflexivity.
      * right.
        pose proof (bulkAction_resolved i a r s b r0 b1 Hreply Hids) as Heq.
        cbv zeta in Heq. rewrite Heq. clear Heq. cbn [evs st'].
        split; [reflexivity|].
        exists (set_loading true s), b1. eexists. eexists.
        split; [reflexivity|].
        split; [reflexivity|].
        split; [destruct (nullish r0); reflexivity|].
        split; [reflexivity|].
        split; [apply Hclear|]. split; [reflexivity|].
        exact (fetchQueue_final_error VUndefined (set_loading true s) b1).
    + left. apply Hrej.
      unfold_ops; cbn; rewrite Hreply; cbn. reflexivity.
Qed.

(** ** The report-listing adapter *)

(** C8: over upstream filters [{status: "pending"}] the adapter's filters
    have [contentType] "all" and [status] "pending"; [pagination.hasMore] is
    false over every store; and [applyFilters], with any argument, and
    [clearFilters] return without an effect, so that the store, and with it
    the adapter's [reports] and [filters], are the ones before the call. *)
Theorem useReports_contract :
  (forall q a st l e,
      let view := useReports (Store q a (VObj [("status", VStr "pending")]) st l e) in
      contentType (view_filters view) = VStr "all" /\
      status (view_filters view) = VStr "pending") /\
  (forall m, hasMore (view_pagination (useReports m)) = false) /\
  (forall nextFilters (m : store) (b : B),
      applyFilters nextFilters m b = Run (Normal VUndefined) m b [] /\
      reports (useReports (st' (applyFilters nextFilters m b))) = reports (useReports m) /\
      view_filters (useReports (st' (applyFilters nextFilters m b)))
      = view_filters (useReports m)) /\
  (forall (m : store) (b : B),
      clearFilters m b = Run (Normal VUndefined) m b [] /\
      reports (useReports (st' (clearFilters m b))) = reports (useReports m) /\
      view_filters (useReports (st' (clearFilters m b))) = view_filters (useReports m)).
Proof.
  split; [intros; split; reflexivity|].
  split; [intros; reflexivity|].
  split; intros; (split; [reflexivity | split; reflexivity]).
Qed.

(** ** Further properties of the dispatcher *)

Ltac settle :=
  repeat match goal with
         | |- _ /\ _ => split
         | |- _ -> _ => intro
         | |- forall _, _ => intro
         | H : ?x <> ?x |- _ => exfalso; apply H; reflexivity
         | H : @eq bool _ _ |- _ => discriminate H
         | H : @eq endpoint _ _ |- _ => discriminate H
         | |- _ => reflexivity
         end.


(** What [fetchQueue] makes of an answered request.  A reply that is an
    object gives back its [data], clears [error] and notifies nothing.  A
    reply that is [null] or [undefined] empties the queue and is then
    treated as a failure: [null] is returned, [error] is set and the failure
    is notified. *)
Theorem fetchQueue_resolved_outcome
        (options : value) (s : store) (b : B) (args : list value) (r : value) :
  let res := fetchQueue options s b in
  In (ERemote GetQueue args (Resolved r)) (evs res) ->
  (nullish r = false ->
   out res = Normal (get_prop r "data") /\
   error (st' res) = VNull /\
   existsb is_toast_error (evs res) = false) /\
  (nullish r = true ->
   out res = Normal VNull /\
   queue (st' res) = VArr [] /\
   error (st' res) = or_else (VStr (type_error_message r "data")) (VStr "Unknown error") /\
   existsb is_toast_error (evs res) = true).
Proof.
  intros res Hin. subst res. revert Hin.
  run_all; intro Hin; split_in;
    (split; intro Hr; try congruence; settle);
    unfold optget; rewrite Hr; reflexivity.
Qed.

(** [fetchAppeals] passes its options (an empty object by default) to the
    service; an answer replaces [appeals] by the [appeals] field under the
    data envelope, or by the empty sequence when that is falsy; a rejection
    keeps [appeals] and returns [null]. *)
Theorem fetchAppeals_replace_or_keep (options : value) (s : store) (b : B) :
  let res := fetchAppeals options s b in
  (forall args r,
      In (ERemote GetAppeals args (Resolved r)) (evs res) ->
      args = [default_arg options (VObj [])] /\
      appeals (st' res)
      = or_else (optget (optget (optget r "data") "data") "appeals") (VArr [])) /\
  (existsb (rejected_at GetAppeals) (evs res) = true ->
   appeals (st' res) = appeals s /\ out res = Normal VNull).
Proof.
  intros res. subst res.
  run_all; (split; [intros args r0 Hin; split_in; split; reflexivity | settle]).
Qed.

(** [fetchFilters] passes its options (an empty object by default) to the
    service; an answer replaces [filters] by what lies under the data
    envelope, or by the empty object when that is falsy, whatever the
    filters were before; a rejection keeps [filters] and returns [null]. *)
Theorem fetchFilters_replace_or_keep (options : value) (s : store) (b : B) :
  let res := fetchFilters options s b in
  (forall args r,
      In (ERemote GetFilters args (Resolved r)) (evs res) ->
      args = [default_arg options (VObj [])] /\
      filters (st' res) = or_else (optget (optget r "data") "data") (VObj [])) /\
  (existsb (rejected_at GetFilters) (evs res) = true ->
   filters (st' res) = filters s /\ out res = Normal VNull).
Proof.
  intros res. subst res.
  run_all; (split; [intros args r0 Hin; split_in; split; reflexivity | settle]).
Qed.

(** [fetchStatistics] sends both dates in one object; an answer replaces
    [statistics] by what lies under the data envelope, and by [null] when
    that is falsy (so an answer of [0] or of the empty string resets it); a
    rejection keeps [statistics] and returns [null]. *)
Theorem fetchStatistics_replace_or_keep (startDate endDate : value) (s : store) (b : B) :
  let res := fetchStatistics startDate endDate s b in
  (forall args r,
      In (ERemote GetStatistics args (Resolved r)) (evs res) ->
      args = [VObj [("startDate", startDate); ("endDate", endDate)]] /\
      statistics (st' res) = or_else (optget (optget r "data") "data") VNull /\
      (truthy (optget (optget r "data") "data") = false ->
       statistics (st' res) = VNull)) /\
  (existsb (rejected_at GetStatistics) (evs res) = true ->
   statistics (st' res) = statistics s /\ out res = Normal VNull).
Proof.
  intros res. subst res.
  run_all;
    (split;
     [intros args r0 Hin; split_in;
      (split; [reflexivity|]; split; [reflexivity|]);
      intro Hf; unfold or_else; rewrite Hf; reflexivity
     | settle]).
Qed.

(** Each operation writes only the collection it is about: [appeals]
    changes only under [fetchAppeals], [statistics] only under
    [fetchStatistics], [filters] only under [fetchFilters] and
    [createFilter], and [queue] only under [fetchQueue], [takeAction] and
    [bulkAction]. *)
Theorem dispatch_frame (c : call) (s : store) (b : B) :
  let res := dispatch c s b in
  (endpoint_of c <> GetAppeals -> appeals (st' res) = appeals s) /\
  (endpoint_of c <> GetStatistics -> statistics (st' res) = statistics s) /\
  (endpoint_of c <> GetFilters -> endpoint_of c <> CreateFilterEp ->
   filters (st' res) = filters s) /\
  (endpoint_of c <> GetQueue -> endpoint_of c <> TakeActionEp ->
   endpoint_of c <> BulkActionEp -> queue (st' res) = queue s).
Proof.
  destruct c; run_all; settle.
Qed.

(** Nothing is retried.  A call makes at most two requests; when its own
    request is rejected that request is the only one; and the six
    operations that are not mutations make at most one. *)
Theorem dispatch_request_budget (c : call) (s : store) (b : B) :
  let res := dispatch c s b in
  requests (evs res) <= 2 /\
  (existsb (rejected_at (endpoint_of c)) (evs res) = true ->
   requests (evs res) = 1) /\
  (endpoint_of c <> TakeActionEp -> endpoint_of c <> BulkActionEp ->
   endpoint_of c <> CreateFilterEp -> requests (evs res) <= 1).
Proof.
  destruct c; run_all; settle; cbv [requests]; cbn; lia.
Qed.

(** The refresh after a mutation carries no context of the caller: every
    queue request made by an operation other than [fetchQueue] has the empty
    query, and every filters request made by an operation other than
    [fetchFilters] has the empty options object. *)
Theorem mutation_refresh_is_unfiltered
        (c : call) (s : store) (b : B) (args : list value) (rep : reply) :
  let res := dispatch c s b in
  (endpoint_of c <> GetQueue ->
   In (ERemote GetQueue args rep) (evs res) -> args = [VStr EmptyString]) /\
  (endpoint_of c <> GetFilters ->
   In (ERemote GetFilters args rep) (evs res) -> args = [VObj []]).
Proof.
  destruct c; run_all;
    (split; intros Hne Hin; split_in;
     first [reflexivity | exfalso; apply Hne; reflexivity]).
Qed.

(** [createFilter] sends the filter data as it is.  When that request is
    rejected no filters are fetched and [filters] is kept.  When it is
    answered, success is notified and the filters are fetched once: an
    answered fetch replaces [filters], a rejected one keeps them, and in
    that case the call still returns the answer of the creation when that is
    an object. *)
Theorem createFilter_refresh_policy (filterData : value) (s : store) (b : B) :
  let res := createFilter filterData s b in
  let fetches := List.length (List.filter (requested_at GetFilters) (evs res)) in
  (existsb (rejected_at CreateFilterEp) (evs res) = true ->
   fetches = 0 /\ filters (st' res) = filters s /\
   existsb is_toast_success (evs res) = false) /\
  (forall args r,
      In (ERemote CreateFilterEp args (Resolved r)) (evs res) ->
      args = [filterData] /\
      fetches = 1 /\
      In (EToastSuccess (VStr "Filter created successfully")) (evs res) /\
      (forall args' r',
          In (ERemote GetFilters args' (Resolved r')) (evs res) ->
          filters (st' res) = or_else (optget (optget r' "data") "data") (VObj [])) /\
      (existsb (rejected_at GetFilters) (evs res) = true ->
       filters (st' res) = filters s /\
       (nullish r = false -> out res = Normal (get_prop r "data")))).
Proof.
  intros res fetches. subst res fetches.
  run_all;
    (split;
     [settle
     | intros args r1 Hin; split_in;
       (split; [reflexivity|]); (split; [reflexivity|]);
       (split; [right; right; left; reflexivity|]);
       (split; [intros args' r' Hin'; split_in; reflexivity|]);
       intro Hrej; try discriminate Hrej;
       (split; [reflexivity|]); intro Hr; try congruence; reflexivity]).
Qed.

(** [bulkAction] on ids that are [null] or [undefined] still sends its
    request; whatever the service answers, the call then notifies failure
    and never success, fetches no queue, keeps the queue and returns
    [null]. *)
Theorem bulkAction_nullish_ids (itemIds action reason : value) (s : store) (b : B) :
  let res := bulkAction itemIds action reason s b in
  nullish itemIds = true ->
  List.nth_error (evs res) 1
  = Some (ERemote BulkActionEp
                  [VObj [("itemIds", itemIds); ("action", action); ("reason", reason)]]
                  (fst (remote BulkActionEp
                               [VObj [("itemIds", itemIds); ("action", action);
                                      ("reason", reason)]] b))) /\
  requests (evs res) = 1 /\
  be' res = snd (remote BulkActionEp
                        [VObj [("itemIds", itemIds); ("action", action);
                               ("reason", reason)]] b) /\
  existsb is_toast_success (evs res) = false /\
  List.filter is_toast_error (evs res) = [EToastError (VStr "Bulk action failed")] /\
  queue (st' res) = queue s /\
  out res = Normal VNull.
Proof.
  intros res Hids. subst res.
  unfold_ops; cbn.
  destruct (remote BulkActionEp
              [VObj [("itemIds", itemIds); ("action", action); ("reason", reason)]] b)
    as [[r0|e0] b1]; cbn; rewrite ?Hids; cbn; settle.
Qed.

Lemma count_success_all (l : list value) :
  count_success l = Z.of_nat (List.length l) <->
  forallb (fun x => truthy (optget x "success")) l = true.
Proof.
  unfold count_success. rewrite Nat2Z.inj_iff.
  induction l as [|x l IH]; cbn [List.filter forallb List.length].
  - split; reflexivity.
  - pose proof (List.filter_length_le (fun r => truthy (optget r "success")) l) as Hle.
    destruct (truthy (optget x "success")); cbn [andb List.length].
    + rewrite <- IH. split; intro H; [injection H as H; exact H | rewrite H; reflexivity].
    + split; intro H; [exfalso; lia | discriminate H].
Qed.

(** The numerator of the bulk notification, when the answer carries a
    sequence under its data envelope: it lies between 0 and the number of
    entries, and reaches that number exactly when every entry has a truthy
    [success]. *)
Theorem successCount_bounds (response : value) (l : list value) :
  optget (optget response "data") "data" = VArr l ->
  (0 <= successCount response <= Z.of_nat (List.length l))%Z /\
  (successCount response = Z.of_nat (List.length l) <->
   forallb (fun x => truthy (optget x "success")) l = true).
Proof.
  intro Hd. unfold successCount. rewrite Hd. cbn [or_else truthy].
  split; [|apply count_success_all].
  unfold count_success.
  pose proof (List.filter_length_le (fun r => truthy (optget r "success")) l).
  lia.
Qed.

(** [analyzeContent] leaves the store as it was apart from [loading], which
    ends false.  An answer is returned as what lies under its data envelope,
    [undefined] when there is none, without any notification; a rejection is
    notified and gives [null]. *)
Theorem analyzeContent_outcome (content : value) (s : store) (b : B) :
  let res := analyzeContent content s b in
  st' res = set_loading false s /\
  (forall args r,
      In (ERemote Analyze args (Resolved r)) (evs res) ->
      args = [content] /\
      out res = Normal (optget (optget r "data") "data") /\
      existsb is_toast_error (evs res) = false) /\
  (existsb (rejected_at Analyze) (evs res) = true ->
   out res = Normal VNull /\
   List.filter is_toast_error (evs res) = [EToastError (VStr "Content analysis failed")]).
Proof.
  intros res. subst res.
  run_all;
    (split; [reflexivity|];
     split; [intros args r0 Hin; split_in; settle | settle]).
Qed.

(** [submitAppeal] leaves the store as it was apart from [loading], which
    ends false, and sends the evidence it is given, the empty sequence by
    default.  A rejection is notified with the message the service put under
    [response.data.message] when that is truthy and with a fixed text
    otherwise, and gives [null]; an answer is notified as a success. *)
Theorem submitAppeal_outcome (actionId why evidence : value) (s : store) (b : B) :
  let res := submitAppeal actionId why evidence s b in
  st' res = set_loading false s /\
  (forall ep args rep,
      In (ERemote ep args rep) (evs res) ->
      ep = SubmitAppealEp /\
      args = [VObj [("actionId", actionId); ("reason", why);
                    ("evidence", default_arg evidence (VArr []))]]) /\
  (forall args e,
      In (ERemote SubmitAppealEp args (Rejected e)) (evs res) ->
      out res = Normal VNull /\
      List.filter is_toast_error (evs res)
      = [EToastError (or_else (optget (optget (optget e "response") "data") "message")
                              (VStr "Failed to submit appeal"))] /\
      existsb is_toast_success (evs res) = false) /\
  (forall args r,
      In (ERemote SubmitAppealEp args (Resolved r)) (evs res) ->
      In (EToastSuccess (VStr "Appeal submitted successfully")) (evs res) /\
      (nullish r = false -> out res = Normal (get_prop r "data"))).
Proof.
  intros res. subst res.
  run_all;
    (split; [reflexivity|];
     split; [intros ep args rep Hin; split_in; split; reflexivity|];
     split; intros args x Hin; split_in; settle;
     try (right; right; left; reflexivity); try congruence).
Qed.

(** ** Further properties of the adapters *)

Lemma or_else_twice (a d : value) : or_else (or_else a VNull) d = or_else a d.
Proof.
  unfold or_else. destruct (truthy a) eqn:Ha; [rewrite Ha|]; reflexivity.
Qed.

(** [refreshStats] asks for the statistics with both dates [undefined] and
    returns [undefined] whatever happens.  After an answer the adapter shows
    what lies under the data envelope when that is truthy and the zeroed
    shape otherwise; after a rejection it shows what it showed before. *)
Theorem refreshStats_view (s : store) (b : B) :
  let res := refreshStats s b in
  out res = Normal VUndefined /\
  (forall ep args rep,
      In (ERemote ep args rep) (evs res) ->
      ep = GetStatistics /\
      args = [VObj [("startDate", VUndefined); ("endDate", VUndefined)]]) /\
  (forall args r,
      In (ERemote GetStatistics args (Resolved r)) (evs res) ->
      useModerationStats (st' res)
      = or_else (optget (optget r "data") "data") zero_statistics) /\
  (existsb (rejected_at GetStatistics) (evs res) = true ->
   useModerationStats (st' res) = useModerationStats s).
Proof.
  intros res. subst res. unfold refreshStats, useModerationStats.
  run_all;
    (split; [reflexivity|];
     split; [intros ep args rep Hin; split_in; split; reflexivity|];
     split; [intros args r0 Hin; split_in; apply or_else_twice | settle]).
Qed.

(** [performBulkAction] is [bulkAction] with the fixed reason
    "bulk_action": the same effects, store and backend.  Its caller learns
    nothing of the outcome: it returns [undefined] on every path, and
    [isProcessing] is false afterwards. *)
Theorem performBulkAction_discards_outcome (ids action : value) (s : store) (b : B) :
  let res := performBulkAction ids action s b in
  let inner := bulkAction ids action (VStr "bulk_action") s b in
  out res = Normal VUndefined /\
  st' res = st' inner /\ be' res = be' inner /\ evs res = evs inner /\
  isProcessing (st' res) = false /\
  (forall args rep,
      In (ERemote BulkActionEp args rep) (evs res) ->
      args = [VObj [("itemIds", ids); ("action", action);
                    ("reason", VStr "bulk_action")]]).
Proof.
  intros res inner. subst res inner. unfold performBulkAction, isProcessing.
  run_all;
    (split; [reflexivity|]; split; [reflexivity|]; split; [reflexivity|];
     split; [reflexivity|]; split; [reflexivity|];
     intros args rep Hin; split_in; reflexivity).
Qed.

(** The report list never shows a falsy value, and its [refresh] is
    [fetchQueue()]: it returns [undefined]; after an answer the list is the
    [items] under the data envelope, or empty when those are falsy; after a
    rejection the list is the one shown before; the filters shown do not
    change. *)
Theorem useReports_refresh (s : store) (b : B) :
  let res := refresh s b in
  (forall m, truthy (reports (useReports m)) = true) /\
  out res = Normal VUndefined /\
  view_loading (useReports (st' res)) = false /\
  view_filters (useReports (st' res)) = view_filters (useReports s) /\
  (forall args r,
      In (ERemote GetQueue args (Resolved r)) (evs res) ->
      reports (useReports (st' res))
      = or_else (optget (optget (optget r "data") "data") "items") (VArr [])) /\
  (existsb (rejected_at GetQueue) (evs res) = true ->
   reports (useReports (st' res)) = reports (useReports s)).
Proof.
  intros res. subst res.
  assert (Hidem : forall a, or_else (or_else a (VArr [])) (VArr []) = or_else a (VArr [])).
  { intro a. unfold or_else. destruct (truthy a) eqn:Ha; [rewrite Ha|]; reflexivity. }
  split.
  { intro m. cbn. unfold or_else. destruct (truthy (queue m)) eqn:Hq; [exact Hq | reflexivity]. }
  unfold useReports.
  run_all;
    (split; [reflexivity|]; split; [reflexivity|]; split; [reflexivity|];
     split; [intros args r0 Hin; split_in; apply Hidem | settle]).
Qed.

End Controller.

(** ** The properties at concrete backends *)

(** C1 as stated fails: with a backend that rejects every request and a
    store whose [error] is "stale", [analyzeContent] performs no write of
    [error] at all; it neither clears the earlier message before the request
    nor records the failure, and the store ends with the earlier message. *)
Lemma analyzeContent_ignores_error :
  let res := dispatch unit failing_remote v8_message
                      (AnalyzeContent (VStr "post")) stale_store tt in
  existsb (rejected_at Analyze) (evs res) = true /\
  evs res = [ESetLoading true;
             ERemote Analyze [VStr "post"] (Rejected (obj_message "Network Error"));
             EToastError (VStr "Content analysis failed");
             ESetLoading false] /\
  existsb writes_error (evs res) = false /\
  error stale_store = VStr "stale" /\
  error (st' res) = VStr "stale".
Proof. vm_compute. repeat split. Qed.

Lemma dispatch_busy_discipline_witness :
  let failed := dispatch unit failing_remote v8_message
                         (FetchQueue (VObj [("page", VNum 2)])) stale_store tt in
  let other := dispatch unit failing_remote v8_message
                        (SubmitAppeal (VNum 5) (VStr "unfair") VUndefined)
                        stale_store tt in
  (existsb (rejected_at GetQueue) (evs failed) = true /\
   existsb is_toast_error (evs failed) = true /\
   List.nth_error (evs failed) 1 = Some (ESetError VNull) /\
   nullish (error (st' failed)) = false) /\
  (existsb (rejected_at SubmitAppealEp) (evs other) = true /\
   existsb writes_error (evs other) = false /\
   error (st' other) = error stale_store).
Proof.
  intros failed other.
  pose proof (dispatch_busy_discipline unit failing_remote v8_message
                (FetchQueue (VObj [("page", VNum 2)])) stale_store tt) as Hf.
  pose proof (dispatch_busy_discipline unit failing_remote v8_message
                (SubmitAppeal (VNum 5) (VStr "unfair") VUndefined) stale_store tt)
    as Ho.
  cbv zeta in Hf, Ho.
  destruct Hf as (_ & _ & _ & _ & Htoast & Hqueue & _).
  destruct Ho as (_ & _ & _ & _ & _ & _ & Hother).
  assert (Hrej : existsb (rejected_at GetQueue) (evs failed) = true)
    by (vm_compute; reflexivity).
  assert (Hrej' : existsb (rejected_at SubmitAppealEp) (evs other) = true)
    by (vm_compute; reflexivity).
  split.
  - split; [exact Hrej|]. split; [exact (Htoast Hrej)|].
    destruct (Hqueue eq_refl) as [Hclear Hset].
    split; [exact Hclear | exact (Hset Hrej)].
  - split; [exact Hrej'|].
    apply Hother; [cbn; discriminate | exact Hrej'].
Defined.

Lemma fetchQueue_success_replaces_queue_witness :
  let full := fetchQueue nat demo_remote v8_message
                         (VObj [("status", VStr "pending")]) stale_store 0 in
  let bare := fetchQueue nat bare_remote v8_message VUndefined stale_store 0 in
  (In (ERemote GetQueue [VStr "status=pending"]
               (Resolved (envelope (VObj [("items", VArr [item 7; item 8])]))))
      (evs full) /\
   queue (st' full) = VArr [item 7; item 8]) /\
  (In (ERemote GetQueue [VStr EmptyString] (Resolved (envelope (VObj []))))
      (evs bare) /\
   queue (st' bare) = VArr []).
Proof.
  intros full bare. split.
  - assert (Hin : In (ERemote GetQueue [VStr "status=pending"]
                        (Resolved (envelope (VObj [("items", VArr [item 7; item 8])]))))
                     (evs full))
      by (vm_compute; right; right; left; reflexivity).
    split; [exact Hin|].
    apply (proj1 (proj2 (fetchQueue_success_replaces_queue
                           nat demo_remote v8_message _ _ _ _ _ Hin))).
    reflexivity.
  - assert (Hin : In (ERemote GetQueue [VStr EmptyString]
                        (Resolved (envelope (VObj [])))) (evs bare))
      by (vm_compute; right; right; left; reflexivity).
    split; [exact Hin|].
    apply (proj2 (proj2 (fetchQueue_success_replaces_queue
                           nat bare_remote v8_message _ _ _ _ _ Hin))).
    reflexivity.
Defined.

Lemma fetchQueue_failure_keeps_queue_witness :
  let res := fetchQueue unit failing_remote v8_message
                        (VObj [("limit", VNum 20)]) stale_store tt in
  existsb (rejected_at GetQueue) (evs res) = true /\
  queue (st' res) = queue stale_store /\
  loading (st' res) = false /\
  nullish (error (st' res)) = false.
Proof.
  intros res.
  assert (Hrej : existsb (rejected_at GetQueue) (evs res) = true)
    by (vm_compute; reflexivity).
  split; [exact Hrej|].
  destruct (fetchQueue_failure_keeps_queue unit failing_remote v8_message
              (VObj [("limit", VNum 20)]) stale_store tt Hrej)
    as (Hq & Hl & Hn & _).
  split; [exact Hq|]. split; [exact Hl | exact Hn].
Defined.

Lemma bulkAction_reports_ratio_witness :
  let ids := [VNum 11; VNum 12; VNum 13] in
  let request := [VObj [("itemIds", VArr ids); ("action", VStr "approve");
                        ("reason", VStr "reviewed")]] in
  let answer := envelope (VArr [flag true; flag false; flag true]) in
  let res := bulkAction nat demo_remote v8_message
                        (VArr ids) (VStr "approve") (VStr "reviewed")
                        initial_store 0 in
  In (ERemote BulkActionEp request (Resolved answer)) (evs res) /\
  optget (optget answer "data") "data" = VArr [flag true; flag false; flag true] /\
  List.length ids = 3 /\
  queue_fetches (evs res) = 1 /\
  List.filter is_toast_success (evs res) =
    [EToastSuccess (VStr "Bulk action completed: 2/3 items")].
Proof.
  intros ids request answer res.
  assert (Hin : In (ERemote BulkActionEp request (Resolved answer)) (evs res))
    by (vm_compute; right; left; reflexivity).
  split; [exact Hin|]. split; [reflexivity|]. split; [reflexivity|].
  destruct (bulkAction_reports_ratio nat demo_remote v8_message ids
              (VStr "approve") (VStr "reviewed") initial_store 0
              request answer Hin eq_refl eq_refl)
    as (s1 & b1 & _ & _ & Hone & Htoast).
  split; [exact Hone | exact Htoast].
Defined.





Lemma dispatch_absorbs_failure_witness :
  let res := dispatch unit failing_remote v8_message
                      (CreateFilter (VObj [("pattern", VStr "spam")]))
                      initial_store tt in
  existsb (rejected_at CreateFilterEp) (evs res) = true /\
  out res = Normal VNull.
Proof.
  intros res.
  assert (Hrej : existsb (rejected_at CreateFilterEp) (evs res) = true)
    by (vm_compute; reflexivity).
  split; [exact Hrej|].
  exact (proj2 (dispatch_absorbs_failure unit failing_remote v8_message
                  (CreateFilter (VObj [("pattern", VStr "spam")]))
                  initial_store tt) Hrej).
Defined.

Lemma only_fetchQueue_writes_error_witness :
  let down := dispatch unit failing_remote v8_message
                       (BulkAction (VArr [VNum 1]) (VStr "approve") (VStr "ok"))
                       stale_store tt in
  let plain := dispatch nat demo_remote v8_message
                        (FetchStatistics VUndefined VUndefined) stale_store 0 in
  (endpoint_of (BulkAction (VArr [VNum 1]) (VStr "approve") (VStr "ok")) <> GetQueue /\
   existsb (rejected_at BulkActionEp) (evs down) = true /\
   existsb writes_error (evs down) = false /\
   error (st' down) = error stale_store) /\
  (endpoint_of (FetchStatistics VUndefined VUndefined) <> TakeActionEp /\
   endpoint_of (FetchStatistics VUndefined VUndefined) <> BulkActionEp /\
   existsb writes_error (evs plain) = false /\
   error (st' plain) = error stale_store).
Proof.
  intros down plain.
  assert (Hne : endpoint_of (BulkAction (VArr [VNum 1]) (VStr "approve") (VStr "ok"))
                <> GetQueue) by (cbn; discriminate).
  assert (Hne' : endpoint_of (FetchStatistics VUndefined VUndefined) <> GetQueue)
    by (cbn; discriminate).
  assert (Hnt : endpoint_of (FetchStatistics VUndefined VUndefined) <> TakeActionEp)
    by (cbn; discriminate).
  assert (Hnb : endpoint_of (FetchStatistics VUndefined VUndefined) <> BulkActionEp)
    by (cbn; discriminate).
  assert (Hrej : existsb (rejected_at BulkActionEp) (evs down) = true)
    by (vm_compute; reflexivity).
  split.
  - split; [exact Hne|]. split; [exact Hrej|].
    exact (proj1 (only_fetchQueue_writes_error unit failing_remote v8_message
                    (BulkAction (VArr [VNum 1]) (VStr "approve") (VStr "ok"))
                    stale_store tt Hne) Hrej).
  - split; [exact Hnt|]. split; [exact Hnb|].
    exact (proj1 (proj2 (only_fetchQueue_writes_error nat demo_remote v8_message
                           (FetchStatistics VUndefined VUndefined)
                           stale_store 0 Hne')) Hnt Hnb).
Defined.

(** C10 as stated fails: a mutation does not change [error] only by its
    refresh clearing it.  Here [takeAction] is accepted by the service, and
    the queue request of its refresh is rejected: [error], "stale" before
    the call, is cleared and then set by [fetchQueue] to the message of that
    rejection, so the accepted mutation ends with [error] at "timeout",
    neither as it was nor cleared, while it returns the answer of the
    mutation. *)
Example takeAction_refresh_can_fail :
  let res := takeAction nat flaky_remote v8_message
                        (VNum 7) (VStr "approve") (VStr "ok") VUndefined
                        stale_store 0 in
  existsb (resolved_at TakeActionEp) (evs res) = true /\
  existsb (rejected_at TakeActionEp) (evs res) = false /\
  error stale_store = VStr "stale" /\
  out res = Normal (VObj [("success", VBool true);
                          ("data", VObj [("ok", VBool true)])]) /\
  queue_fetches (evs res) = 1 /\
  List.filter writes_error (evs res) = [ESetError VNull; ESetError (VStr "timeout")] /\
  queue (st' res) = queue stale_store /\
  error (st' res) = VStr "timeout" /\
  error (st' res) <> VNull /\
  error (st' res) <> error stale_store /\
  loading (st' res) = false.
Proof. vm_compute. repeat split; discriminate. Qed.

(** The adapter over the store a successful [fetchFilters] leaves. *)
Example useReports_after_fetchFilters :
  let m := st' (fetchFilters nat demo_remote v8_message VUndefined initial_store 0) in
  filters m = VObj [("status", VStr "pending")] /\
  view_filters (useReports m)
  = ReportFilters (VStr "pending") (VStr "all") (VStr "all") (VStr "recent") /\
  reports (useReports m) = VArr [].
Proof. vm_compute. repeat split. Qed.

(** ** The further properties at concrete backends and browsers *)


Lemma fetchQueue_resolved_outcome_witness :
  let reply_of (data : value) : endpoint -> list value -> unit -> reply * unit :=
    fun _ _ b => (Resolved data, b) in
  let good := fetchQueue unit (reply_of (envelope (VObj []))) v8_message
                         VUndefined stale_store tt in
  let empty := fetchQueue unit (reply_of VUndefined) v8_message
                          VUndefined stale_store tt in
  (In (ERemote GetQueue [VStr EmptyString] (Resolved (envelope (VObj [])))) (evs good) /\
   nullish (envelope (VObj [])) = false /\
   error (st' good) = VNull) /\
  (In (ERemote GetQueue [VStr EmptyString] (Resolved VUndefined)) (evs empty) /\
   nullish VUndefined = true /\
   out empty = Normal VNull /\ queue (st' empty) = VArr []).
Proof.
  intros reply_of good empty. split.
  - assert (Hin : In (ERemote GetQueue [VStr EmptyString]
                        (Resolved (envelope (VObj [])))) (evs good))
      by (vm_compute; right; right; left; reflexivity).
    split; [exact Hin|]. split; [reflexivity|].
    exact (proj1 (proj2 (proj1 (fetchQueue_resolved_outcome
                                  unit (reply_of (envelope (VObj []))) v8_message
                                  VUndefined stale_store tt _ _ Hin) eq_refl))).
  - assert (Hin : In (ERemote GetQueue [VStr EmptyString] (Resolved VUndefined))
                     (evs empty))
      by (vm_compute; right; right; left; reflexivity).
    split; [exact Hin|]. split; [reflexivity|].
    destruct (proj2 (fetchQueue_resolved_outcome
                       unit (reply_of VUndefined) v8_message
                       VUndefined stale_store tt _ _ Hin) eq_refl)
      as (Ho & Hq & _).
    split; [exact Ho | exact Hq].
Defined.

Lemma fetchAppeals_replace_or_keep_witness :
  let up := fetchAppeals nat demo_remote v8_message VUndefined stale_store 0 in
  let down := fetchAppeals unit failing_remote v8_message VUndefined stale_store tt in
  (In (ERemote GetAppeals [VObj []]
               (Resolved (envelope (VObj [("appeals", VArr [])])))) (evs up) /\
   appeals (st' up) = VArr []) /\
  (existsb (rejected_at GetAppeals) (evs down) = true /\
   appeals (st' down) = appeals stale_store).
Proof.
  intros up down. split.
  - assert (Hin : In (ERemote GetAppeals [VObj []]
                        (Resolved (envelope (VObj [("appeals", VArr [])])))) (evs up))
      by (vm_compute; right; left; reflexivity).
    split; [exact Hin|].
    exact (proj2 (proj1 (fetchAppeals_replace_or_keep nat demo_remote v8_message
                           VUndefined stale_store 0) _ _ Hin)).
  - assert (Hrej : existsb (rejected_at GetAppeals) (evs down) = true)
      by (vm_compute; reflexivity).
    split; [exact Hrej|].
    exact (proj1 (proj2 (fetchAppeals_replace_or_keep unit failing_remote v8_message
                           VUndefined stale_store tt) Hrej)).
Defined.

Lemma fetchFilters_replace_or_keep_witness :
  let up := fetchFilters nat demo_remote v8_message VUndefined stale_store 0 in
  let down := fetchFilters unit failing_remote v8_message VUndefined stale_store tt in
  (In (ERemote GetFilters [VObj []]
               (Resolved (envelope (VObj [("status", VStr "pending")])))) (evs up) /\
   filters (st' up) = VObj [("status", VStr "pending")]) /\
  (existsb (rejected_at GetFilters) (evs down) = true /\
   filters (st' down) = filters stale_store).
Proof.
  intros up down. split.
  - assert (Hin : In (ERemote GetFilters [VObj []]
                        (Resolved (envelope (VObj [("status", VStr "pending")]))))
                     (evs up))
      by (vm_compute; right; left; reflexivity).
    split; [exact Hin|].
    exact (proj2 (proj1 (fetchFilters_replace_or_keep nat demo_remote v8_message
                           VUndefined stale_store 0) _ _ Hin)).
  - assert (Hrej : existsb (rejected_at GetFilters) (evs down) = true)
      by (vm_compute; reflexivity).
    split; [exact Hrej|].
    exact (proj1 (proj2 (fetchFilters_replace_or_keep unit failing_remote v8_message
                           VUndefined stale_store tt) Hrej)).
Defined.

Lemma fetchStatistics_replace_or_keep_witness :
  let seen := Store (VArr []) (VArr []) (VObj []) (VObj [("total", VNum 9)]) false VNull in
  let reset := fetchStatistics nat bare_remote v8_message (VStr "2024-01-01") VUndefined seen 0 in
  let down := fetchStatistics unit failing_remote v8_message VUndefined VUndefined seen tt in
  (In (ERemote GetStatistics
               [VObj [("startDate", VStr "2024-01-01"); ("endDate", VUndefined)]]
               (Resolved (envelope VNull))) (evs reset) /\
   truthy (optget (optget (envelope VNull) "data") "data") = false /\
   statistics (st' reset) = VNull) /\
  (existsb (rejected_at GetStatistics) (evs down) = true /\
   statistics (st' down) = statistics seen).
Proof.
  intros seen reset down. split.
  - assert (Hin : In (ERemote GetStatistics
                        [VObj [("startDate", VStr "2024-01-01"); ("endDate", VUndefined)]]
                        (Resolved (envelope VNull))) (evs reset))
      by (vm_compute; right; left; reflexivity).
    split; [exact Hin|]. split; [reflexivity|].
    exact (proj2 (proj2 (proj1 (fetchStatistics_replace_or_keep nat bare_remote
                                  v8_message (VStr "2024-01-01") VUndefined seen 0)
                               _ _ Hin)) eq_refl).
  - assert (Hrej : existsb (rejected_at GetStatistics) (evs down) = true)
      by (vm_compute; reflexivity).
    split; [exact Hrej|].
    exact (proj1 (proj2 (fetchStatistics_replace_or_keep unit failing_remote
                           v8_message VUndefined VUndefined seen tt) Hrej)).
Defined.

Lemma dispatch_frame_witness :
  let c := TakeAction (VNum 7) (VStr "approve") (VStr "ok") VUndefined in
  let res := dispatch nat demo_remote v8_message c stale_store 0 in
  endpoint_of c <> GetAppeals /\ endpoint_of c <> GetStatistics /\
  endpoint_of c <> GetFilters /\ endpoint_of c <> CreateFilterEp /\
  appeals (st' res) = appeals stale_store /\
  statistics (st' res) = statistics stale_store /\
  filters (st' res) = filters stale_store.
Proof.
  intros c res.
  assert (H1 : endpoint_of c <> GetAppeals) by (cbn; discriminate).
  assert (H2 : endpoint_of c <> GetStatistics) by (cbn; discriminate).
  assert (H3 : endpoint_of c <> GetFilters) by (cbn; discriminate).
  assert (H4 : endpoint_of c <> CreateFilterEp) by (cbn; discriminate).
  destruct (dispatch_frame nat demo_remote v8_message c stale_store 0)
    as (Ha & Hs & Hf & _).
  repeat (split; [assumption|]).
  split; [exact (Ha H1)|]. split; [exact (Hs H2) | exact (Hf H3 H4)].
Defined.

Lemma dispatch_request_budget_witness :
  let down := dispatch unit failing_remote v8_message
                       (CreateFilter (VObj [("pattern", VStr "spam")]))
                       initial_store tt in
  let c := FetchAppeals VUndefined in
  let plain := dispatch nat demo_remote v8_message c initial_store 0 in
  (existsb (rejected_at CreateFilterEp) (evs down) = true /\
   requests (evs down) = 1) /\
  (endpoint_of c <> TakeActionEp /\ endpoint_of c <> BulkActionEp /\
   endpoint_of c <> CreateFilterEp /\ requests (evs plain) <= 1).
Proof.
  intros down c plain. split.
  - assert (Hrej : existsb (rejected_at CreateFilterEp) (evs down) = true)
      by (vm_compute; reflexivity).
    split; [exact Hrej|].
    exact (proj1 (proj2 (dispatch_request_budget unit failing_remote v8_message
                           (CreateFilter (VObj [("pattern", VStr "spam")]))
                           initial_store tt)) Hrej).
  - assert (H1 : endpoint_of c <> TakeActionEp) by (cbn; discriminate).
    assert (H2 : endpoint_of c <> BulkActionEp) by (cbn; discriminate).
    assert (H3 : endpoint_of c <> CreateFilterEp) by (cbn; discriminate).
    repeat (split; [assumption|]).
    exact (proj2 (proj2 (dispatch_request_budget nat demo_remote v8_message
                           c initial_store 0)) H1 H2 H3).
Defined.

Lemma mutation_refresh_is_unfiltered_witness :
  let c := TakeAction (VNum 7) (VStr "approve") (VStr "ok") VUndefined in
  let d := CreateFilter (VObj [("pattern", VStr "spam")]) in
  let answer := Resolved (envelope (VObj [("items", VArr [item 7; item 8])])) in
  let listing := Resolved (envelope (VObj [("status", VStr "pending")])) in
  (endpoint_of c <> GetQueue /\
   In (ERemote GetQueue [VStr EmptyString] answer)
      (evs (dispatch nat demo_remote v8_message c stale_store 0))) /\
  (endpoint_of d <> GetFilters /\
   In (ERemote GetFilters [VObj []] listing)
      (evs (dispatch nat demo_remote v8_message d stale_store 0))) /\
  [VStr EmptyString] = [VStr EmptyString] /\ [VObj []] = [VObj []].
Proof.
  intros c d answer listing.
  assert (Hc : endpoint_of c <> GetQueue) by (cbn; discriminate).
  assert (Hd : endpoint_of d <> GetFilters) by (cbn; discriminate).
  assert (Hin : In (ERemote GetQueue [VStr EmptyString] answer)
                   (evs (dispatch nat demo_remote v8_message c stale_store 0)))
    by (vm_compute; do 5 right; left; reflexivity).
  assert (Hin' : In (ERemote GetFilters [VObj []] listing)
                    (evs (dispatch nat demo_remote v8_message d stale_store 0)))
    by (vm_compute; do 4 right; left; reflexivity).
  split; [split; assumption|]. split; [split; assumption|].
  split.
  - exact (proj1 (mutation_refresh_is_unfiltered nat demo_remote v8_message
                    c stale_store 0 [VStr EmptyString] answer) Hc Hin).
  - exact (proj2 (mutation_refresh_is_unfiltered nat demo_remote v8_message
                    d stale_store 0 [VObj []] listing) Hd Hin').
Defined.

Lemma createFilter_refresh_policy_witness :
  let d := VObj [("pattern", VStr "spam")] in
  let down := createFilter unit failing_remote v8_message d stale_store tt in
  let up := createFilter nat demo_remote v8_message d stale_store 0 in
  (existsb (rejected_at CreateFilterEp) (evs down) = true /\
   filters (st' down) = filters stale_store) /\
  (In (ERemote CreateFilterEp [d] (Resolved (envelope (VObj [("ok", VBool true)]))))
      (evs up) /\
   List.length (List.filter (requested_at GetFilters) (evs up)) = 1 /\
   In (ERemote GetFilters [VObj []]
               (Resolved (envelope (VObj [("status", VStr "pending")])))) (evs up) /\
   filters (st' up) = VObj [("status", VStr "pending")]).
Proof.
  intros d down up. split.
  - assert (Hrej : existsb (rejected_at CreateFilterEp) (evs down) = true)
      by (vm_compute; reflexivity).
    split; [exact Hrej|].
    exact (proj1 (proj2 (proj1 (createFilter_refresh_policy unit failing_remote
                                  v8_message d stale_store tt) Hrej))).
  - assert (Hin : In (ERemote CreateFilterEp [d]
                        (Resolved (envelope (VObj [("ok", VBool true)])))) (evs up))
      by (vm_compute; right; left; reflexivity).
    assert (Hin' : In (ERemote GetFilters [VObj []]
                         (Resolved (envelope (VObj [("status", VStr "pending")]))))
                      (evs up))
      by (vm_compute; do 4 right; left; reflexivity).
    destruct (proj2 (createFilter_refresh_policy nat demo_remote v8_message
                       d stale_store 0) _ _ Hin)
      as (_ & Hone & _ & Hrepl & _).
    split; [exact Hin|]. split; [exact Hone|]. split; [exact Hin'|].
    exact (Hrepl _ _ Hin').
Defined.

Lemma bulkAction_nullish_ids_witness :
  let res := bulkAction nat demo_remote v8_message
                        VUndefined (VStr "approve") (VStr "ok") stale_store 0 in
  nullish VUndefined = true /\
  requests (evs res) = 1 /\ be' res = 1 /\
  existsb is_toast_success (evs res) = false /\
  out res = Normal VNull.
Proof.
  intros res.
  destruct (bulkAction_nullish_ids nat demo_remote v8_message
              VUndefined (VStr "approve") (VStr "ok") stale_store 0 eq_refl)
    as (_ & Hone & Hbe & Hno & _ & _ & Hout).
  split; [reflexivity|]. split; [exact Hone|]. split; [exact Hbe|].
  split; [exact Hno | exact Hout].
Defined.

Lemma successCount_bounds_witness :
  let l := [flag true; VNull; VObj [("success", VStr "yes")]] in
  optget (optget (envelope (VArr l)) "data") "data" = VArr l /\
  (0 <= successCount (envelope (VArr l)) <= 3)%Z /\
  (forallb (fun x => truthy (optget x "success")) [flag true] = true /\
   successCount (envelope (VArr [flag true])) = 1%Z).
Proof.
  intros l. split; [reflexivity|]. split.
  - exact (proj1 (successCount_bounds (envelope (VArr l)) l eq_refl)).
  - split; [reflexivity|].
    exact (proj2 (proj2 (successCount_bounds (envelope (VArr [flag true]))
                           [flag true] eq_refl)) eq_refl).
Defined.

Lemma analyzeContent_outcome_witness :
  let up := analyzeContent nat demo_remote (VStr "post") stale_store 0 in
  let down := analyzeContent unit failing_remote (VStr "post") stale_store tt in
  (In (ERemote Analyze [VStr "post"] (Resolved (envelope (VObj [("ok", VBool true)]))))
      (evs up) /\
   out up = Normal (VObj [("ok", VBool true)])) /\
  (existsb (rejected_at Analyze) (evs down) = true /\ out down = Normal VNull).
Proof.
  intros up down. split.
  - assert (Hin : In (ERemote Analyze [VStr "post"]
                        (Resolved (envelope (VObj [("ok", VBool true)])))) (evs up))
      by (vm_compute; right; left; reflexivity).
    split; [exact Hin|].
    exact (proj1 (proj2 (proj1 (proj2 (analyzeContent_outcome nat demo_remote
                                         (VStr "post") stale_store 0)) _ _ Hin))).
  - assert (Hrej : existsb (rejected_at Analyze) (evs down) = true)
      by (vm_compute; reflexivity).
    split; [exact Hrej|].
    exact (proj1 (proj2 (proj2 (analyzeContent_outcome unit failing_remote
                                  (VStr "post") stale_store tt)) Hrej)).
Defined.

Lemma submitAppeal_outcome_witness :
  let refusal := VObj [("response",
                        VObj [("data", VObj [("message", VStr "Appeal window closed")])])] in
  let refusing : endpoint -> list value -> unit -> reply * unit :=
    fun _ _ b => (Rejected refusal, b) in
  let request := [VObj [("actionId", VNum 5); ("reason", VStr "unfair");
                        ("evidence", VArr [])]] in
  let down := submitAppeal unit refusing v8_message
                           (VNum 5) (VStr "unfair") VUndefined stale_store tt in
  let up := submitAppeal nat demo_remote v8_message
                         (VNum 5) (VStr "unfair") VUndefined stale_store 0 in
  (In (ERemote SubmitAppealEp request (Rejected refusal)) (evs down) /\
   List.filter is_toast_error (evs down)
   = [EToastError (VStr "Appeal window closed")]) /\
  (In (ERemote SubmitAppealEp request
               (Resolved (envelope (VObj [("ok", VBool true)])))) (evs up) /\
   In (EToastSuccess (VStr "Appeal submitted successfully")) (evs up)).
Proof.
  intros refusal refusing request down up. split.
  - assert (Hin : In (ERemote SubmitAppealEp request (Rejected refusal)) (evs down))
      by (vm_compute; right; left; reflexivity).
    split; [exact Hin|].
    exact (proj1 (proj2 (proj1 (proj2 (proj2 (submitAppeal_outcome
                                                unit refusing v8_message
                                                (VNum 5) (VStr "unfair") VUndefined
                                                stale_store tt))) _ _ Hin))).
  - assert (Hin : In (ERemote SubmitAppealEp request
                        (Resolved (envelope (VObj [("ok", VBool true)])))) (evs up))
      by (vm_compute; right; left; reflexivity).
    split; [exact Hin|].
    exact (proj1 (proj2 (proj2 (proj2 (submitAppeal_outcome
                                         nat demo_remote v8_message
                                         (VNum 5) (VStr "unfair") VUndefined
                                         stale_store 0))) _ _ Hin)).
Defined.

Lemma refreshStats_view_witness :
  let up := refreshStats nat demo_remote v8_message initial_store 0 in
  let down := refreshStats unit failing_remote v8_message initial_store tt in
  (In (ERemote GetStatistics
               [VObj [("startDate", VUndefined); ("endDate", VUndefined)]]
               (Resolved (envelope (VObj [("total", VNum 4)])))) (evs up) /\
   useModerationStats (st' up) = VObj [("total", VNum 4)]) /\
  (existsb (rejected_at GetStatistics) (evs down) = true /\
   useModerationStats (st' down) = zero_statistics).
Proof.
  intros up down. split.
  - assert (Hin : In (ERemote GetStatistics
                        [VObj [("startDate", VUndefined); ("endDate", VUndefined)]]
                        (Resolved (envelope (VObj [("total", VNum 4)])))) (evs up))
      by (vm_compute; right; left; reflexivity).
    split; [exact Hin|].
    exact (proj1 (proj2 (proj2 (refreshStats_view nat demo_remote v8_message
                                  initial_store 0))) _ _ Hin).
  - assert (Hrej : existsb (rejected_at GetStatistics) (evs down) = true)
      by (vm_compute; reflexivity).
    split; [exact Hrej|].
    exact (proj2 (proj2 (proj2 (refreshStats_view unit failing_remote v8_message
                                  initial_store tt))) Hrej).
Defined.

Lemma performBulkAction_discards_outcome_witness :
  let ids := VArr [VNum 11; VNum 12; VNum 13] in
  let request := [VObj [("itemIds", ids); ("action", VStr "approve");
                        ("reason", VStr "bulk_action")]] in
  let res := performBulkAction unit failing_remote v8_message
                               ids (VStr "approve") stale_store tt in
  In (ERemote BulkActionEp request (Rejected (obj_message "Network Error"))) (evs res) /\
  request = request /\
  out res = Normal VUndefined.
Proof.
  intros ids request res.
  assert (Hin : In (ERemote BulkActionEp request
                      (Rejected (obj_message "Network Error"))) (evs res))
    by (vm_compute; right; left; reflexivity).
  destruct (performBulkAction_discards_outcome unit failing_remote v8_message
              ids (VStr "approve") stale_store tt)
    as (Hout & _ & _ & _ & _ & Hargs).
  split; [exact Hin|]. split; [exact (Hargs _ _ Hin) | exact Hout].
Defined.

Lemma useReports_refresh_witness :
  let up := refresh nat demo_remote v8_message stale_store 0 in
  let down := refresh unit failing_remote v8_message stale_store tt in
  (In (ERemote GetQueue [VStr EmptyString]
               (Resolved (envelope (VObj [("items", VArr [item 7; item 8])]))))
      (evs up) /\
   reports (useReports (st' up)) = VArr [item 7; item 8]) /\
  (existsb (rejected_at GetQueue) (evs down) = true /\
   reports (useReports (st' down)) = VArr [item 1]).
Proof.
  intros up down. split.
  - assert (Hin : In (ERemote GetQueue [VStr EmptyString]
                        (Resolved (envelope (VObj [("items", VArr [item 7; item 8])]))))
                     (evs up))
      by (vm_compute; right; right; left; reflexivity).
    split; [exact Hin|].
    destruct (useReports_refresh nat demo_remote v8_message stale_store 0)
      as (_ & _ & _ & _ & Hrepl & _).
    exact (Hrepl _ _ Hin).
  - assert (Hrej : existsb (rejected_at GetQueue) (evs down) = true)
      by (vm_compute; reflexivity).
    split; [exact Hrej|].
    destruct (useReports_refresh unit failing_remote v8_message stale_store tt)
      as (_ & _ & _ & _ & _ & Hkeep).
    exact (Hkeep Hrej).
Defined.

(** ** Properties of the navigation bar *)

Lemma getItem_setItem (k v : string) (l : list (string * string)) :
  getItem k (setItem k v l) = Some v.
Proof.
  induction l as [|[k' v'] l IH]; cbn.
  - rewrite String.eqb_refl. reflexivity.
  - destruct (String.eqb k k') eqn:Hk; cbn; rewrite ?String.eqb_refl, ?Hk; auto.
Qed.

Lemma getItem_setItem_other (k k0 v : string) (l : list (string * string)) :
  k <> k0 -> getItem k (setItem k0 v l) = getItem k l.
Proof.
  intro Hk.
  assert (Hne : String.eqb k k0 = false).
  { destruct (String.eqb k k0) eqn:E; [|reflexivity].
    apply String.eqb_eq in E. contradiction. }
  induction l as [|[k' v'] l IH]; cbn.
  - rewrite Hne. reflexivity.
  - destruct (String.eqb k0 k') eqn:E'; cbn.
    + apply String.eqb_eq in E'. subst k'. rewrite Hne. reflexivity.
    + destruct (String.eqb k k'); [reflexivity | exact IH].
Qed.

Lemma in_classList_remove (tokens l : list string) (c : string) :
  In c (classList_remove tokens l) <-> In c l /\ ~ In c tokens.
Proof.
  unfold classList_remove. rewrite List.filter_In.
  split; intros [Hin Hno]; (split; [exact Hin|]).
  - intro Hc. apply Bool.negb_true_iff in Hno.
    assert (Hex : existsb (String.eqb c) tokens = true).
    { apply List.existsb_exists. exists c. split; [exact Hc | apply String.eqb_refl]. }
    congruence.
  - apply Bool.negb_true_iff. destruct (existsb (String.eqb c) tokens) eqn:Hex; [|reflexivity].
    apply List.existsb_exists in Hex. destruct Hex as [x [Hx Heq]].
    apply String.eqb_eq in Heq. subst x. contradiction.
Qed.

Lemma classList_add_fresh (t : string) (l : list string) :
  valid_token t = true -> ~ In t l -> classList_add t l = Some (l ++ [t])%list.
Proof.
  intros Hv Hno. unfold classList_add. rewrite Hv.
  destruct (existsb (String.eqb t) l) eqn:Hex; [|reflexivity].
  apply List.existsb_exists in Hex. destruct Hex as [x [Hx Heq]].
  apply String.eqb_eq in Heq. subst x. contradiction.
Qed.

Lemma classList_add_in (t : string) (l l' : list string) :
  classList_add t l = Some l' -> In t l' /\ forall c, In c l' <-> In c l \/ c = t.
Proof.
  unfold classList_add. destruct (valid_token t); [|discriminate].
  destruct (existsb (String.eqb t) l) eqn:Hex; intro H; injection H as <-.
  - apply List.existsb_exists in Hex. destruct Hex as [x [Hx Heq]].
    apply String.eqb_eq in Heq. subst x.
    split; [exact Hx|]. intro c. split; [auto | intros [H| ->]; assumption].
  - split; [apply List.in_or_app; right; left; reflexivity|].
    intro c. rewrite List.in_app_iff. cbn. intuition.
Qed.

Lemma classList_remove_themes_again (l : list string) (t : string) :
  t = "light" \/ t = "dark" ->
  classList_remove ["light"; "dark"] (classList_remove ["light"; "dark"] l ++ [t])
  = classList_remove ["light"; "dark"] l.
Proof.
  intro Ht. unfold classList_remove. rewrite List.filter_app.
  assert (Hlast : List.filter (fun c => negb (existsb (String.eqb c) ["light"; "dark"])) [t] = []).
  { destruct Ht as [-> | ->]; reflexivity. }
  rewrite Hlast, List.app_nil_r.
  induction l as [|c l IH]; cbn [List.filter]; [reflexivity|].
  destruct (negb (existsb (String.eqb c) ["light"; "dark"])) eqn:Hc; cbn [List.filter].
  - rewrite Hc, IH. reflexivity.
  - exact IH.
Qed.

(** What [apply_theme] does with one of the two theme names. *)
Lemma apply_theme_named (t : string) (n : navbar) (w : browser) :
  t = "light" \/ t = "dark" ->
  apply_theme t n w =
  Completed (NavbarState t (mobileMenuOpen n) (dropdownOpen n))
            (with_classList (classList_remove ["light"; "dark"] (classList w) ++ [t]) w).
Proof.
  intro Ht. unfold apply_theme. cbn [classList with_classList].
  rewrite classList_add_fresh.
  - reflexivity.
  - destruct Ht as [-> | ->]; reflexivity.
  - rewrite in_classList_remove. intros [_ Hno]. apply Hno.
    destruct Ht as [-> | ->]; cbn; auto.
Qed.

Lemma next_theme_named (t : string) :
  (if String.eqb t "dark" then "light" else "dark") = "light" \/
  (if String.eqb t "dark" then "light" else "dark") = "dark".
Proof. destruct (String.eqb t "dark"); auto. Qed.

(** [toggleTheme] never throws.  The new theme is light when the old one was
    dark and dark otherwise, even when the old one was neither; it is saved,
    and its class is put last on the body in place of both theme classes,
    the other classes staying as they were.  Nothing else changes. *)
Theorem toggleTheme_sync (n : navbar) (w : browser) :
  let next := if String.eqb (theme n) "dark" then "light" else "dark" in
  exists n' w',
    toggleTheme n w = Completed n' w' /\
    theme n' = next /\
    getItem "theme" (localStorage w') = Some next /\
    classList w' = (classList_remove ["light"; "dark"] (classList w) ++ [next])%list /\
    mobileMenuOpen n' = mobileMenuOpen n /\ dropdownOpen n' = dropdownOpen n /\
    overflow w' = overflow w /\ pointerEvents w' = pointerEvents w /\
    calls w' = calls w /\
    (forall k, k <> "theme" ->
               getItem k (localStorage w') = getItem k (localStorage w)).
Proof.
  intros next. unfold toggleTheme. fold next.
  rewrite (apply_theme_named next n w (next_theme_named (theme n))).
  eexists. eexists. split; [reflexivity|].
  cbn. split; [reflexivity|]. split; [apply getItem_setItem|].
  repeat (split; [reflexivity|]).
  intros k Hk. apply getItem_setItem_other. exact Hk.
Qed.

(** Two toggles in a row bring back a light or dark theme, with its class
    last on the body and the theme saved; from any other theme they end on
    light. *)
Theorem toggleTheme_twice (n : navbar) (w : browser) :
  exists n1 w1 n2 w2,
    toggleTheme n w = Completed n1 w1 /\
    toggleTheme n1 w1 = Completed n2 w2 /\
    theme n2 = (if String.eqb (theme n) "dark" then "dark" else "light") /\
    (theme n = "light" \/ theme n = "dark" -> theme n2 = theme n) /\
    getItem "theme" (localStorage w2) = Some (theme n2) /\
    classList w2 = (classList_remove ["light"; "dark"] (classList w) ++ [theme n2])%list.
Proof.
  destruct (toggleTheme_sync n w) as (n1 & w1 & H1 & Ht1 & _ & Hc1 & _).
  destruct (toggleTheme_sync n1 w1) as (n2 & w2 & H2 & Ht2 & Hs2 & Hc2 & _).
  cbv zeta in *.
  exists n1, w1, n2, w2.
  split; [exact H1|]. split; [exact H2|].
  assert (Hth : theme n2 = (if String.eqb (theme n) "dark" then "dark" else "light")).
  { rewrite Ht2, Ht1. destruct (String.eqb (theme n) "dark"); reflexivity. }
  split; [exact Hth|]. split.
  - intros [Hl | Hd]; rewrite Hth; [rewrite Hl | rewrite Hd]; reflexivity.
  - split; [rewrite Hs2, Ht2; reflexivity|].
    rewrite Hc2, Hc1, <- Ht2.
    rewrite classList_remove_themes_again; [reflexivity|].
    apply next_theme_named.
Qed.

Lemma has_whitespace_named (t : string) :
  t = "light" \/ t = "dark" -> has_whitespace t = false.
Proof. intros [-> | ->]; reflexivity. Qed.

Lemma initial_theme_not_empty (w : browser) : initial_theme w <> EmptyString.
Proof.
  unfold initial_theme.
  destruct (getItem "theme" (localStorage w)) as [t|].
  - destruct (String.eqb t EmptyString) eqn:E.
    + destruct (prefersDark w); discriminate.
    + intro H. rewrite H in E. discriminate E.
  - destruct (prefersDark w); discriminate.
Qed.

(** The mount completes exactly when the theme it starts from, the saved
    one if there is a non-empty one and the preferred one otherwise, has no
    whitespace.  Then the state has that theme, the body carries its class
    and is not locked.  Otherwise adding the class throws: the state has the
    theme, but the body has lost both theme classes. *)
Theorem mount_outcome (w : browser) :
  (has_whitespace (initial_theme w) = false ->
   exists w',
     mount w = Completed (NavbarState (initial_theme w) false false) w' /\
     in_step (NavbarState (initial_theme w) false false) w' /\
     localStorage w' = localStorage w /\ calls w' = calls w) /\
  (has_whitespace (initial_theme w) = true ->
   exists w',
     mount w = Crashed (NavbarState (initial_theme w) false false) w' /\
     classList w' = classList_remove ["light"; "dark"] (classList w) /\
     ~ In "light" (classList w') /\ ~ In "dark" (classList w')).
Proof.
  pose proof (initial_theme_not_empty w) as Hne.
  assert (Hnz : String.eqb (initial_theme w) EmptyString = false).
  { destruct (String.eqb (initial_theme w) EmptyString) eqn:E; [|reflexivity].
    apply String.eqb_eq in E. contradiction. }
  unfold mount, themeSetup, apply_theme. cbn [classList with_classList].
  split; intro Hws.
  - destruct (classList_add (initial_theme w)
                (classList_remove ["light"; "dark"] (classList w))) as [l|] eqn:Hadd.
    + destruct (classList_add_in _ _ _ Hadd) as [Hin Hall].
      eexists. split; [reflexivity|].
      cbn. split; [|split; reflexivity].
      unfold in_step. cbn.
      split; [reflexivity|]. split; [reflexivity|]. split; [exact Hin|]. split.
      * intros t Ht Htin. apply Hall in Htin. destruct Htin as [Htin | Heq]; [|exact Heq].
        apply in_classList_remove in Htin. destruct Htin as [_ Hno].
        exfalso. apply Hno. destruct Ht as [-> | ->]; cbn; auto.
      * intros t Hst Htne. unfold initial_theme. rewrite Hst.
        destruct (String.eqb t EmptyString) eqn:E; [|reflexivity].
        apply String.eqb_eq in E. contradiction.
    + unfold classList_add, valid_token in Hadd. rewrite Hnz, Hws in Hadd.
      cbn in Hadd. destruct (existsb _ _); discriminate Hadd.
  - unfold classList_add, valid_token. rewrite Hnz, Hws. cbn.
    eexists. split; [reflexivity|]. cbn. split; [reflexivity|].
    split; rewrite in_classList_remove; intros [_ Hno]; apply Hno; cbn; auto.
Qed.

(** The saved theme is what a later mount starts from: after a toggle, a
    mount over any browser with the same storage, whatever its preferred
    colour scheme and body classes, completes with the toggled theme and
    carries its class. *)
Theorem theme_survives_remount (n n1 : navbar) (w w1 w2 : browser) :
  toggleTheme n w = Completed n1 w1 ->
  localStorage w2 = localStorage w1 ->
  exists w3,
    mount w2 = Completed (NavbarState (theme n1) false false) w3 /\
    in_step (NavbarState (theme n1) false false) w3.
Proof.
  intros Htog Hsame.
  destruct (toggleTheme_sync n w) as (n' & w' & H' & Ht & Hs & _).
  cbv zeta in *. rewrite Htog in H'. injection H' as <- <-.
  assert (Hinit : initial_theme w2 = theme n1).
  { unfold initial_theme. rewrite Hsame, Hs, Ht.
    destruct (String.eqb (theme n) "dark"); reflexivity. }
  assert (Hws : has_whitespace (initial_theme w2) = false).
  { rewrite Hinit, Ht. apply has_whitespace_named.
    destruct (next_theme_named (theme n)) as [H|H]; rewrite H; auto. }
  destruct (proj1 (mount_outcome w2) Hws) as (w3 & Hm & Hstep & _).
  rewrite Hinit in Hm, Hstep. exists w3. split; assumption.
Qed.

Lemma after_click_in_step (c : click) (n : navbar) (w : browser) :
  in_step n w ->
  exists n' w', after_click c n w = Completed n' w' /\ in_step n' w'.
Proof.
  intros (Hov & Hpe & Hin & Hone & Hsaved).
  destruct c; unfold after_click, handler.
  - destruct (toggleTheme_sync n w)
      as (n' & w' & -> & Ht & Hs & Hc & Hm & _ & Ho & Hp & _).
    cbv zeta in *. rewrite Hm, Bool.eqb_reflx.
    exists n', w'. split; [reflexivity|].
    unfold in_step. rewrite Hm, Ho, Hp, Hc, Hs, Ht.
    split; [exact Hov|]. split; [exact Hpe|].
    split; [apply List.in_or_app; right; left; reflexivity|].
    split.
    + intros t Hnamed Htin. apply List.in_app_or in Htin.
      destruct Htin as [Htin | [Heq | []]]; [|symmetry; exact Heq].
      apply in_classList_remove in Htin. destruct Htin as [_ Hno].
      exfalso. apply Hno. destruct Hnamed as [-> | ->]; cbn; auto.
    + intros t Hst _. injection Hst as <-. reflexivity.
  - cbn. destruct (mobileMenuOpen n) eqn:Hopen; cbn;
      eexists; eexists; (split; [reflexivity|]);
      unfold in_step; cbn; rewrite ?Hopen; auto.
  - cbn. destruct (mobileMenuOpen n) eqn:Hopen; cbn;
      eexists; eexists; (split; [reflexivity|]);
      unfold in_step; cbn; rewrite ?Hopen; auto.
  - cbn. rewrite Bool.eqb_reflx.
    eexists; eexists; (split; [reflexivity|]). unfold in_step; cbn; auto.
  - unfold handleLogout. cbn. destruct (mobileMenuOpen n) eqn:Hopen; cbn;
      eexists; eexists; (split; [reflexivity|]);
      unfold in_step; cbn; rewrite ?Hopen; auto.
Qed.

(** Over a whole visit that starts from a theme without whitespace, no
    click ever throws, and after every click state and browser agree: the
    body is locked exactly while the drawer is open, it carries the class of
    the current theme and neither of the two theme classes besides, and a
    saved theme is the current one. *)
Theorem visit_in_step (w : browser) (cs : list click) :
  has_whitespace (initial_theme w) = false ->
  exists n' w', visit w cs = Completed n' w' /\ in_step n' w'.
Proof.
  intro Hws. unfold visit.
  destruct (proj1 (mount_outcome w) Hws) as (w1 & -> & Hstep & _).
  revert Hstep. generalize (NavbarState (initial_theme w) false false).
  revert w1. induction cs as [|c cs IH]; intros w1 n1 Hstep; cbn [after_clicks].
  - exists n1, w1. split; [reflexivity | exact Hstep].
  - destruct (after_click_in_step c n1 w1 Hstep) as (n2 & w2 & -> & Hstep2).
    apply IH. exact Hstep2.
Qed.

(** Logging out calls [logout] and then [navigate] to the root, in that
    order, closes the drawer and the user menu, and keeps the theme, the
    body classes and the storage.  It releases the scroll lock when the
    drawer was open; when it was closed the body styles are not touched. *)
Theorem logout_closes_menus (n : navbar) (w : browser) :
  exists w',
    after_click ClickLogout n w = Completed (NavbarState (theme n) false false) w' /\
    calls w' = (calls w ++ [CallLogout; CallNavigate "/"])%list /\
    classList w' = classList w /\ localStorage w' = localStorage w /\
    (mobileMenuOpen n = true -> overflow w' = "auto" /\ pointerEvents w' = "auto") /\
    (mobileMenuOpen n = false ->
     overflow w' = overflow w /\ pointerEvents w' = pointerEvents w).
Proof.
  unfold after_click, handler, handleLogout. cbn.
  destruct (mobileMenuOpen n); cbn; eexists; (split; [reflexivity|]); cbn;
    repeat match goal with
           | |- _ /\ _ => split
           | |- _ -> _ => intro
           end;
    first [reflexivity | discriminate].
Qed.

Lemma toggleTheme_sync_witness :
  exists n' w',
    toggleTheme (NavbarState "dark" true false) demo_browser = Completed n' w' /\
    theme n' = "light" /\
    "token" <> "theme" /\
    getItem "token" (localStorage w') = Some "abc" /\
    getItem "theme" (localStorage w') = Some "light" /\
    classList w' = ["antialiased"; "light"].
Proof.
  destruct (toggleTheme_sync (NavbarState "dark" true false) demo_browser)
    as (n' & w' & Hrun & Ht & Hs & Hc & _ & _ & _ & _ & _ & Hother).
  assert (Hne : "token" <> "theme") by discriminate.
  exists n', w'.
  split; [exact Hrun|]. split; [exact Ht|]. split; [exact Hne|].
  split; [exact (Hother "token" Hne)|]. split; [exact Hs | exact Hc].
Defined.

Lemma toggleTheme_twice_witness :
  exists n1 w1 n2 w2,
    toggleTheme (NavbarState "dark" false false) demo_browser = Completed n1 w1 /\
    toggleTheme n1 w1 = Completed n2 w2 /\
    ("dark" = "light" \/ "dark" = "dark") /\
    theme n2 = "dark".
Proof.
  destruct (toggleTheme_twice (NavbarState "dark" false false) demo_browser)
    as (n1 & w1 & n2 & w2 & H1 & H2 & _ & Hback & _).
  assert (Hnamed : "dark" = "light" \/ "dark" = "dark") by (right; reflexivity).
  exists n1, w1, n2, w2.
  split; [exact H1|]. split; [exact H2|]. split; [exact Hnamed|].
  exact (Hback Hnamed).
Defined.

Lemma mount_outcome_witness :
  (has_whitespace (initial_theme demo_browser) = false /\
   exists w', mount demo_browser = Completed (NavbarState "dark" false false) w') /\
  (has_whitespace (initial_theme broken_browser) = true /\
   exists w',
     mount broken_browser = Crashed (NavbarState "dark mode" false false) w' /\
     ~ In "light" (classList w')).
Proof.
  split.
  - split; [reflexivity|].
    destruct (proj1 (mount_outcome demo_browser) eq_refl) as (w' & Hm & _).
    exists w'. exact Hm.
  - split; [reflexivity|].
    destruct (proj2 (mount_outcome broken_browser) eq_refl) as (w' & Hm & _ & Hl & _).
    exists w'. split; [exact Hm | exact Hl].
Defined.

Lemma theme_survives_remount_witness :
  let n1 := NavbarState "light" true false in
  let w1 := Browser ["antialiased"; "light"] "auto" "auto"
                    [("token", "abc"); ("theme", "light")] false [] in
  let later := Browser [] "auto" "auto" [("token", "abc"); ("theme", "light")] true [] in
  toggleTheme (NavbarState "dark" true false) demo_browser = Completed n1 w1 /\
  localStorage later = localStorage w1 /\
  exists w3, mount later = Completed (NavbarState "light" false false) w3.
Proof.
  intros n1 w1 later.
  assert (Htog : toggleTheme (NavbarState "dark" true false) demo_browser
                 = Completed n1 w1) by reflexivity.
  split; [exact Htog|]. split; [reflexivity|].
  destruct (theme_survives_remount (NavbarState "dark" true false) n1
              demo_browser w1 later Htog eq_refl) as (w3 & Hm & _).
  exists w3. exact Hm.
Defined.

Lemma visit_in_step_witness :
  has_whitespace (initial_theme demo_browser) = false /\
  exists n' w',
    visit demo_browser [ClickHamburger; ClickTheme; ClickUser; ClickLogout; ClickHamburger]
    = Completed n' w' /\
    in_step n' w'.
Proof.
  split; [reflexivity|].
  exact (visit_in_step demo_browser
           [ClickHamburger; ClickTheme; ClickUser; ClickLogout; ClickHamburger] eq_refl).
Defined.

Lemma logout_closes_menus_witness :
  let n := NavbarState "dark" true true in
  let w := Browser ["dark"] "hidden" "none" [("theme", "dark")] false [] in
  mobileMenuOpen n = true /\
  exists w',
    after_click ClickLogout n w = Completed (NavbarState "dark" false false) w' /\
    overflow w' = "auto" /\ pointerEvents w' = "auto".
Proof.
  intros n w. split; [reflexivity|].
  destruct (logout_closes_menus n w) as (w' & Hrun & _ & _ & _ & Hopen & _).
  exists w'. split; [exact Hrun | exact (Hopen eq_refl)].
Defined.
